(** * grpc-test-mem: the RSS measurement harness

    A shallow embedding of [test-mem-leak-read.cpp] and
    [test-mem-leak-write.cpp].  Both programs share the RSS sampler
    [get_current_rss_mb] and the shape of the driver loop [trigger_mem];
    they differ in the buffer workload ([read_file] / [write_file]) and
    in [main].

    Layout: the model (numbers, stream extraction, the sampler, the
    effects of the driver, the two variants); the words of the
    specification and the vocabulary of the statements; concrete
    surroundings; facts about the model; the claims, C1 to C10. *)

From Stdlib Require Import ZArith List Ascii String DecimalString Lia.
From Stdlib.Strings Require Import Byte.
From stdpp Require Import gmap strings.

Local Open Scope Z_scope.

(* ===================================================================== *)
(** * Numbers as the program has them *)
(* ===================================================================== *)

Module Num.

(** [long] is 64 bits wide on the LP64 targets the program is written
    for ([/proc] is a Linux interface). *)
Definition LONG_MAX : Z := 2 ^ 63 - 1.
Definition LONG_MIN : Z := - 2 ^ 63.

(** Two's complement result of a [long] operation whose mathematical
    result is [z].  (Signed overflow is undefined in C++; the model takes
    what the multiplication instruction yields.) *)
Definition wrap_long (z : Z) : Z := (z + 2 ^ 63) mod 2 ^ 64 - 2 ^ 63.

(** Every [double] the sampler and the driver hold is integer valued: it
    is converted from a [long], or is the difference of two such
    values.  A [double] variable is therefore modelled by the integer it
    holds.  [round53 z] is the IEEE-754 binary64 value nearest to the
    integer [z] (ties to even): integers of magnitude up to 2^53 are
    exact, larger ones keep 53 significant bits. *)
Definition round53 (z : Z) : Z :=
  let a := Z.abs z in
  let e := Z.log2 a - 52 in
  if e <=? 0 then z
  else
    let ulp := 2 ^ e in
    let q := a / ulp in
    let r := a mod ulp in
    let half := ulp / 2 in
    let q' := if r <? half then q
              else if half <? r then q + 1
              else if Z.even q then q else q + 1 in
    Z.sgn z * (q' * ulp).

(** Implicit conversion [long -> double]. *)
Definition double_of_long (z : Z) : Z := round53 z.

(** [a - b] on doubles holding the integers [a] and [b]. *)
Definition double_sub (a b : Z) : Z := round53 (a - b).

(** [d / 1024] on a double holding the integer [d], converted to [long]
    by the [return]: the quotient is exact in binary64 (a change of
    exponent), the conversion truncates toward zero. *)
Definition long_of_double_div (d k : Z) : Z := Z.quot d k.

(** [std::to_string(int)] and [operator<<(int)]: decimal digits, a
    leading minus sign for negative numbers. *)
Definition to_string (z : Z) : string := NilZero.string_of_int (Z.to_int z).

(** Rounding of the non-negative rational [n / d] to the nearest integer,
    ties to even: what the C library does when it prints a binary
    floating-point value with fewer digits than it has. *)
Definition round_half_even (n d : Z) : Z :=
  let q := n / d in
  let r := n mod d in
  if 2 * r <? d then q
  else if d <? 2 * r then q + 1
  else if Z.even q then q else q + 1.

Definition two_digits (z : Z) : string :=
  if z <? 10 then "0" +:+ to_string z else to_string z.

(** [std::fixed << std::setprecision(2)] applied to the double whose
    value is the rational [n / d] ([0 < d]). *)
Definition fixed2_ratio (n d : Z) : string :=
  let h := round_half_even (Z.abs n * 100) d in
  (if n <? 0 then "-" else "") +:+ to_string (h / 100) +:+ "." +:+ two_digits (h mod 100).

(** The same for a double holding the integer [z]. *)
Definition fixed2 (z : Z) : string := fixed2_ratio z 1.

End Num.

(* ===================================================================== *)
(** * Formatted input: [operator>>] on [std::ifstream] *)
(* ===================================================================== *)

Module IStream.

(** An input file stream: whether a file is attached, the characters not
    yet consumed, and the fail bit.  Once the fail bit is set every
    further extraction is a no-op that leaves its target untouched. *)
Record ifstream : Type := mk_ifstream {
  is_open : bool;
  pending : string;
  failbit : bool
}.

(** [std::ifstream s(path)]: [None] stands for a source that cannot be
    opened; the constructor then sets the fail bit. *)
Definition open (source : option string) : ifstream :=
  match source with
  | Some text => mk_ifstream true text false
  | None => mk_ifstream false "" true
  end.

(** [std::isspace] in the classic locale. *)
Definition isspace (c : ascii) : bool :=
  let n := Z.of_N (N_of_ascii c) in
  (n =? 32) || ((9 <=? n) && (n <=? 13)).

Definition isdigit (c : ascii) : bool :=
  let n := Z.of_N (N_of_ascii c) in
  (48 <=? n) && (n <=? 57).

Fixpoint skipws (s : string) : string :=
  match s with
  | String c rest => if isspace c then skipws rest else s
  | EmptyString => EmptyString
  end.

(** The longest prefix without white space, and what follows it. *)
Fixpoint take_word (s : string) : string * string :=
  match s with
  | String c rest =>
      if isspace c then (EmptyString, s)
      else let '(w, rest') := take_word rest in (String c w, rest')
  | EmptyString => (EmptyString, EmptyString)
  end.

Fixpoint take_digits (s : string) : string * string :=
  match s with
  | String c rest =>
      if isdigit c then let '(w, rest') := take_digits rest in (String c w, rest')
      else (EmptyString, s)
  | EmptyString => (EmptyString, EmptyString)
  end.

Fixpoint digits_value (acc : Z) (s : string) : Z :=
  match s with
  | String c rest => digits_value (10 * acc + (Z.of_N (N_of_ascii c) - 48)) rest
  | EmptyString => acc
  end.

Definition set_fail (s : ifstream) (rest : string) : ifstream :=
  mk_ifstream (is_open s) rest true.

(** [stream >> var] for a [std::string]: skip white space, then take
    characters up to the next white space or the end.  When nothing is
    left the fail bit is set and [var] keeps its value. *)
Definition extract_string (var : string) (s : ifstream) : string * ifstream :=
  if failbit s then (var, s)
  else
    match skipws (pending s) with
    | EmptyString => (var, set_fail s EmptyString)
    | text =>
        let '(w, rest) := take_word text in
        (w, mk_ifstream (is_open s) rest false)
    end.

(** What [operator>>(long&)] makes of the characters in front of it: an
    optional sign and decimal digits are consumed.  The result is the
    value stored, whether the fail bit is raised, and the characters left.
    Since C++11 a field that does not start with a number stores 0 and
    one that is out of range stores the nearest limit, each with the
    fail bit. *)
Definition scan_long (text : string) : Z * bool * string :=
  let '(negative, body) :=
    match text with
    | String c rest =>
        if Ascii.eqb c "-" then (true, rest)
        else if Ascii.eqb c "+" then (false, rest)
        else (false, text)
    | EmptyString => (false, text)
    end in
  let '(digits, rest) := take_digits body in
  match digits with
  | EmptyString => (0, true, rest)
  | _ =>
      let v := digits_value 0 digits in
      let v := if negative then - v else v in
      (Z.max Num.LONG_MIN (Z.min Num.LONG_MAX v),
       (v <? Num.LONG_MIN) || (Num.LONG_MAX <? v), rest)
  end.

(** The number a white-space separated field denotes when it is read
    into a [long]. *)
Definition long_of_field (field : string) : Z := fst (fst (scan_long field)).

(** [stream >> var] for a [long].  A stream that has already failed, or
    has nothing but white space left, leaves [var] untouched. *)
Definition extract_long (var : Z) (s : ifstream) : Z * ifstream :=
  if failbit s then (var, s)
  else
    match skipws (pending s) with
    | EmptyString => (var, set_fail s EmptyString)
    | text =>
        let '(v, bad, rest) := scan_long text in
        (v, mk_ifstream (is_open s) rest bad)
    end.

End IStream.

(* ===================================================================== *)
(** * The RSS sampler *)
(* ===================================================================== *)

(** How a call ends: it returns a value, or the process is terminated by
    [abort()] (a failed [assert]). *)
Inductive outcome (A : Type) : Type :=
| Returned (a : A)
| Aborted.
Arguments Returned {A} a.
Arguments Aborted {A}.

Module Sampler.
Import IStream.

(** [std::string::empty]. *)
Definition empty (s : string) : bool :=
  match s with EmptyString => true | String _ _ => false end.

(** [long get_current_rss_mb()].  The function has no parameter; what it
    reads from its surroundings is made explicit:
    - [source]: the text of [/proc/self/stat], [None] when the file
      cannot be opened;
    - [page_size]: the value of [sysconf(_SC_PAGE_SIZE)];
    - [rss0]: the indeterminate value the uninitialised local [rss]
      holds on entry;
    - [ndebug]: whether the program was compiled with [NDEBUG], which
      removes the [assert].
    The local [O] is written [O_]: [O] is a constructor of [nat]. *)
Definition get_current_rss_mb
    (source : option string) (page_size : Z) (rss0 : Z) (ndebug : bool) : outcome Z :=
  let stat_stream := open source in
  let resident_set := 0 in
  let temp_pid := ""%string in let comm := ""%string in let state := ""%string in
  let ppid := ""%string in let pgrp := ""%string in let session := ""%string in
  let tty_nr := ""%string in let tpgid := ""%string in let flags := ""%string in
  let minflt := ""%string in let cminflt := ""%string in let majflt := ""%string in
  let cmajflt := ""%string in let utime := ""%string in let stime := ""%string in
  let cutime := ""%string in let cstime := ""%string in let priority := ""%string in
  let nice := ""%string in let O_ := ""%string in let itrealvalue := ""%string in
  let starttime := ""%string in let vsize := ""%string in
  let rss := rss0 in
  let '(temp_pid, stat_stream) := extract_string temp_pid stat_stream in
  let '(comm, stat_stream) := extract_string comm stat_stream in
  let '(state, stat_stream) := extract_string state stat_stream in
  let '(ppid, stat_stream) := extract_string ppid stat_stream in
  let '(pgrp, stat_stream) := extract_string pgrp stat_stream in
  let '(session, stat_stream) := extract_string session stat_stream in
  let '(tty_nr, stat_stream) := extract_string tty_nr stat_stream in
  let '(tpgid, stat_stream) := extract_string tpgid stat_stream in
  let '(flags, stat_stream) := extract_string flags stat_stream in
  let '(minflt, stat_stream) := extract_string minflt stat_stream in
  let '(cminflt, stat_stream) := extract_string cminflt stat_stream in
  let '(majflt, stat_stream) := extract_string majflt stat_stream in
  let '(cmajflt, stat_stream) := extract_string cmajflt stat_stream in
  let '(utime, stat_stream) := extract_string utime stat_stream in
  let '(stime, stat_stream) := extract_string stime stat_stream in
  let '(cutime, stat_stream) := extract_string cutime stat_stream in
  let '(cstime, stat_stream) := extract_string cstime stat_stream in
  let '(priority, stat_stream) := extract_string priority stat_stream in
  let '(nice, stat_stream) := extract_string nice stat_stream in
  let '(O_, stat_stream) := extract_string O_ stat_stream in
  let '(itrealvalue, stat_stream) := extract_string itrealvalue stat_stream in
  let '(starttime, stat_stream) := extract_string starttime stat_stream in
  let '(vsize, stat_stream) := extract_string vsize stat_stream in
  let '(rss, stat_stream) := extract_long rss stat_stream in
  (* assert(!state.empty()); *)
  if negb ndebug && empty state then Aborted
  else
    let page_size_kb := Z.quot page_size 1024 in
    let resident_set := Num.double_of_long (Num.wrap_long (rss * page_size_kb)) in
    Returned (Num.long_of_double_div resident_set 1024).

(** The arithmetic at the end of [get_current_rss_mb], as a function of
    the value of [rss]. *)
Definition mb_of_rss (rss page_size : Z) : Z :=
  Num.long_of_double_div
    (Num.double_of_long (Num.wrap_long (rss * Z.quot page_size 1024))) 1024.

End Sampler.

(* ===================================================================== *)
(** * The driver's effects *)
(* ===================================================================== *)

Module Driver.

(** What the program does to the outside, in order. *)
Inductive event : Type :=
| Cout (line : string)             (* a line on [std::cout], without its [std::endl] *)
| Cerr (line : string)             (* a line on [std::cerr] *)
| CreateChannel (address : string) (* [grpc::CreateChannel(address, creds)] *)
| SleepFor (milliseconds : Z)      (* [std::this_thread::sleep_for] *)
| Remove (path : string) (result : Z). (* [std::remove(path)] and what it returned *)

(** What the program reads from the outside and cannot change. *)
Record environment : Type := mk_environment {
  (** the text of [/proc/self/stat] at the n-th call of the sampler,
      [None] when it cannot be opened *)
  proc_self_stat : nat -> option string;
  (** [sysconf(_SC_PAGE_SIZE)] *)
  page_size : Z;
  (** the indeterminate value of the sampler's uninitialised local [rss]
      at its n-th call *)
  stack_garbage : nat -> Z;
  (** compiled with [NDEBUG] *)
  ndebug : bool;
  (** [getpid()] *)
  pid : Z;
  (** whether the process may create, truncate and remove the file at a
      path *)
  writable : string -> bool
}.

(** What the program changes.  [files] binds a path when the process can
    open the file there for reading; a file it may not read is unbound
    like a missing one, [std::ifstream] does not tell the two apart. *)
Record state : Type := mk_state {
  files : gmap string (list byte);
  samples : nat;
  trace : list event
}.

Definition M (A : Type) : Type := state -> outcome A * state.

Definition ret {A} (a : A) : M A := fun st => (Returned a, st).

Definition bind {A B} (c : M A) (k : A -> M B) : M B :=
  fun st =>
    match c st with
    | (Returned a, st') => k a st'
    | (Aborted, st') => (Aborted, st')
    end.

Declare Scope driver_scope.
Delimit Scope driver_scope with driver.
Notation "'let*' x ':=' c 'in' k" := (bind c (fun x => k))
  (at level 10, x name, c at level 100, k at level 200) : driver_scope.
Notation "c ';;;' k" := (bind c (fun _ => k))
  (at level 100, k at level 200, right associativity) : driver_scope.
Local Open Scope driver_scope.

Definition emit (e : event) : M unit :=
  fun st => (Returned tt, mk_state (files st) (samples st) (trace st ++ [e])).

Definition cout (line : string) : M unit := emit (Cout line).
Definition cerr (line : string) : M unit := emit (Cerr line).
Definition create_channel (address : string) : M unit := emit (CreateChannel address).
Definition sleep_for (milliseconds : Z) : M unit := emit (SleepFor milliseconds).

Definition NUM_ITERATIONS : Z := 50.

(** [n] zero bytes: a value-initialised [std::vector<char>(n)]. *)
Definition zeros (n : Z) : list byte := replicate (Z.to_nat n) x00.

(** [for (int i = ...; i < NUM_ITERATIONS; ++i) body(i)]: the test, the
    body, the increment; the body does not assign [i].  The loop is
    unrolled [fuel] times at most. *)
Fixpoint for_loop (fuel : nat) (i : Z) (body : Z -> M unit) : M unit :=
  match fuel with
  | O => ret tt
  | S fuel' =>
      if i <? NUM_ITERATIONS then body i ;;; for_loop fuel' (i + 1) body
      else ret tt
  end.

(** The loop of [trigger_mem], from [i = 0], with one more unrolling than
    it has iterations: it ends on its test, not for want of fuel. *)
Definition for_iterations (body : Z -> M unit) : M unit :=
  for_loop (S (Z.to_nat NUM_ITERATIONS)) 0 body.

(** The address of the channel of iteration [i]. *)
Definition channel_address (i : Z) : string :=
  "localhost:" +:+ Num.to_string (4000 + i).

(** The line an iteration prints. *)
Definition iteration_line (i : Z) (current_rss diff_from_start : Z) : string :=
  "Iteration " +:+ Num.to_string (i + 1) +:+ "/" +:+ Num.to_string NUM_ITERATIONS +:+ ": "
  +:+ "Current RSS: " +:+ Num.fixed2 current_rss +:+ " MB | "
  +:+ "Total increase: +" +:+ Num.fixed2 diff_from_start +:+ " MB".

(** Projections of a trace. *)
Definition cout_lines (t : list event) : list string :=
  omap (fun e => match e with Cout l => Some l | _ => None end) t.

Definition cerr_lines (t : list event) : list string :=
  omap (fun e => match e with Cerr l => Some l | _ => None end) t.

Definition channels (t : list event) : list string :=
  omap (fun e => match e with CreateChannel a => Some a | _ => None end) t.

Section WithEnvironment.
Variable env : environment.

(** How the n-th call of the sampler ends. *)
Definition sample (n : nat) : outcome Z :=
  Sampler.get_current_rss_mb
    (proc_self_stat env n) (page_size env) (stack_garbage env n) (ndebug env).

(** A call of [get_current_rss_mb()]: the calls are counted, whether
    they return or not. *)
Definition call_get_current_rss_mb : M Z :=
  fun st => (sample (samples st), mk_state (files st) (S (samples st)) (trace st)).

(** [std::ofstream file(path, binary | out | trunc)] (also the default
    mode of [std::ofstream]): the file is created or emptied.  The
    result is [file.is_open()]. *)
Definition ofstream_open (path : string) : M bool :=
  fun st =>
    if writable env path
    then (Returned true, mk_state (<[path := []]> (files st)) (samples st) (trace st))
    else (Returned false, st).

(** [file.write(data, n)] on an open [std::ofstream]: the bytes go to
    the end of the file.  (The device is taken to have room.) *)
Definition ofstream_write (path : string) (data : list byte) : M unit :=
  fun st =>
    (Returned tt,
     mk_state (<[path := default [] (files st !! path) ++ data]> (files st))
              (samples st) (trace st)).

(** [std::remove(path)]: 0 when the file is gone, non-zero otherwise.
    A removal followed by an open that creates the file again leaves
    [files] as a truncation would; the call and its result are therefore
    part of the trace. *)
Definition std_remove (path : string) : M Z :=
  fun st =>
    match files st !! path with
    | Some _ =>
        if writable env path
        then (Returned 0,
              mk_state (delete path (files st)) (samples st) (trace st ++ [Remove path 0]))
        else (Returned (-1),
              mk_state (files st) (samples st) (trace st ++ [Remove path (-1)]))
    | None =>
        (Returned (-1), mk_state (files st) (samples st) (trace st ++ [Remove path (-1)]))
    end.

(** [file.read(buffer, n)] on a [std::ifstream] over [content]: up to
    [n] bytes overwrite the front of the buffer.  The result is the
    buffer and [gcount()]. *)
Definition ifstream_read (content buffer : list byte) (n : Z) : list byte * Z :=
  let got := take (Z.to_nat n) content in
  (got ++ drop (length got) buffer, Z.of_nat (length got)).

End WithEnvironment.

End Driver.

(* ===================================================================== *)
(** * The read variant: test-mem-leak-read.cpp *)
(* ===================================================================== *)

Module ReadVariant.
Import Driver.
Local Open Scope driver_scope.

Definition ARBITRARY_FILE_SIZE : Z := 50 * 1024 * 1024.
Definition READ_SIZE : Z := 30 * 1024 * 1024.

Section WithEnvironment.
Variable env : environment.

(** [void read_file(const std::string&)].  The function returns nothing;
    the model returns what its local buffer holds when it goes out of
    scope together with the count of bytes the read delivered, and
    [None] when the function left before allocating the buffer. *)
Definition read_file (file_path : string) : M (option (list byte * Z)) :=
  fun st =>
    match files st !! file_path with
    | None =>
        (cerr ("Error: File '" +:+ file_path +:+ "' not found.") ;;; ret None) st
    | Some content =>
        let data_buffer := zeros READ_SIZE in
        ret (Some (ifstream_read content data_buffer READ_SIZE)) st
    end.

(** The body of the loop of [trigger_mem].  The worker thread is joined
    at once, so [read_file] simply runs before the rest. *)
Definition iteration (file_path : string) (initial_rss : Z) (i : Z) : M unit :=
  read_file file_path ;;;
  let address := channel_address i in
  create_channel address ;;;
  let* rss := call_get_current_rss_mb env in
  let current_rss := Num.double_of_long rss in
  let diff_from_start := Num.double_sub current_rss initial_rss in
  cout (iteration_line i current_rss diff_from_start) ;;;
  sleep_for 100.

(** [void trigger_mem(const std::string&)]; [main] has put [std::cout]
    into fixed notation with two decimals. *)
Definition trigger_mem (file_path : string) : M unit :=
  let* rss := call_get_current_rss_mb env in
  let initial_rss := Num.double_of_long rss in
  cout ("PID: " +:+ Num.to_string (pid env)) ;;;
  cout ("Initial RSS: " +:+ Num.fixed2 initial_rss +:+ " MB") ;;;
  cout "---------------------------------------------------------" ;;;
  for_iterations (iteration file_path initial_rss).

(** The loop of [create_mock_file]:
    [for (written = 0; written < size; written += zero_chunk.size())]. *)
Fixpoint write_chunks (fuel : nat) (file_path : string) (zero_chunk : list byte)
    (size written : Z) : M unit :=
  match fuel with
  | O => ret tt
  | S fuel' =>
      if written <? size then
        let write_size := Z.min (Z.of_nat (length zero_chunk)) (size - written) in
        ofstream_write file_path (take (Z.to_nat write_size) zero_chunk) ;;;
        write_chunks fuel' file_path zero_chunk size (written + Z.of_nat (length zero_chunk))
      else ret tt
  end.

(** [void create_mock_file(const std::string&, size_t)].  One more
    round of fuel than there are chunks in [size]. *)
Definition create_mock_file (file_path : string) (size : Z) : M unit :=
  cout ("Generating temporary file of size "
        +:+ Num.fixed2_ratio (Num.round53 size) (1024 * 1024) +:+ " MB...") ;;;
  let* opened := ofstream_open env file_path in
  if negb opened then
    cerr ("Error: Could not create mock file at " +:+ file_path)
  else
    let zero_chunk := zeros (1024 * 1024) in
    write_chunks (Z.to_nat (size / (1024 * 1024) + 1)) file_path zero_chunk size 0 ;;;
    cout ("Mock file created at: " +:+ file_path).

(** [int main(int, char*[])]; the result is the exit code. *)
Definition main : M Z :=
  let mock_file_path := "/tmp/tmp_mem_test_file" in
  create_mock_file mock_file_path ARBITRARY_FILE_SIZE ;;;
  trigger_mem mock_file_path ;;;
  let* removed := std_remove env mock_file_path in
  (if negb (removed =? 0) then cerr "Warning: Could not delete mock file." else ret tt) ;;;
  ret 0.

End WithEnvironment.

End ReadVariant.

(* ===================================================================== *)
(** * The write variant: test-mem-leak-write.cpp *)
(* ===================================================================== *)

Module WriteVariant.
Import Driver.
Local Open Scope driver_scope.

Definition WRITE_SIZE : Z := 30 * 1024 * 1024.

Section WithEnvironment.
Variable env : environment.

(** [void write_file(const std::string&)]. *)
Definition write_file (file_path : string) : M unit :=
  let* opened := ofstream_open env file_path in
  if negb opened then
    cerr ("Error: File '" +:+ file_path +:+ "' not found.")
  else
    let data_buffer := zeros WRITE_SIZE in
    ofstream_write file_path (take (Z.to_nat WRITE_SIZE) data_buffer).

(** The body of the loop of [trigger_mem]; the result of [std::remove]
    is tested and then ignored. *)
Definition iteration (file_path : string) (initial_rss : Z) (i : Z) : M unit :=
  let* removed := std_remove env file_path in
  write_file file_path ;;;
  let address := channel_address i in
  create_channel address ;;;
  let* rss := call_get_current_rss_mb env in
  let current_rss := Num.double_of_long rss in
  let diff_from_start := Num.double_sub current_rss initial_rss in
  cout (iteration_line i current_rss diff_from_start) ;;;
  sleep_for 100.

(** [void trigger_mem()]. *)
Definition trigger_mem : M unit :=
  let* rss := call_get_current_rss_mb env in
  let initial_rss := Num.double_of_long rss in
  cout ("PID: " +:+ Num.to_string (pid env)) ;;;
  cout ("Initial RSS: " +:+ Num.fixed2 initial_rss +:+ " MB") ;;;
  cout "---------------------------------------------------------" ;;;
  let file_path := "/tmp/test_file.txt" in
  for_iterations (iteration file_path initial_rss).

(** [int main(int, char*[])]. *)
Definition main : M Z :=
  trigger_mem ;;;
  ret 0.

End WithEnvironment.

End WriteVariant.

(* ===================================================================== *)
(** * The words of the specification *)
(* ===================================================================== *)

Module Words.

(** The pieces of a text between white-space characters, and its
    white-space separated fields: the pieces that are not empty.  Field
    positions count from 0. *)
Fixpoint split_ws (s : string) : list string :=
  match s with
  | EmptyString => [EmptyString]
  | String c rest =>
      if IStream.isspace c then EmptyString :: split_ws rest
      else match split_ws rest with
           | w :: ws => String c w :: ws
           | [] => [String c EmptyString]
           end
  end.

Definition fields (line : string) : list string :=
  List.filter (fun w => negb (Sampler.empty w)) (split_ws line).

(** Resident memory in whole megabytes for [pages] resident pages, in
    exact integer arithmetic: pages times the page size in KB, divided
    by 1024, each division truncating as in C. *)
Definition megabytes (pages page_size : Z) : Z :=
  Z.quot (pages * Z.quot page_size 1024) 1024.

End Words.

(* ===================================================================== *)
(** * Vocabulary of the statements *)
(* ===================================================================== *)

Module Statements.
Import Driver.
Local Open Scope driver_scope.

(** The value [operator>>(long&)] stores, from the sign and the digits
    it has consumed. *)
Definition stored (negative : bool) (digits : string) : Z :=
  match digits with
  | EmptyString => 0
  | _ =>
      let v := IStream.digits_value 0 digits in
      let v := if negative then - v else v in
      Z.max Num.LONG_MIN (Z.min Num.LONG_MAX v)
  end.

(** The value the n-th call of the sampler hands to its caller. *)
Definition sampled (env : environment) (n : nat) : Z :=
  match sample env n with Returned v => v | Aborted => 0 end.

(** [k] consecutive calls of the sampler return, from call [n] on. *)
Definition samples_return (env : environment) (n k : nat) : Prop :=
  forall j, (j < k)%nat -> sample env (n + j) <> Aborted.

(** The n-th status line is well formed: its 24th field is the page count
    [pages], which is not negative and whose size in KB a double holds
    exactly. *)
Definition status_reports (env : environment) (n : nat) (pages : Z) : Prop :=
  exists line f,
    proc_self_stat env n = Some line /\
    Words.fields line !! 23%nat = Some f /\
    IStream.long_of_field f = pages /\
    0 <= pages /\
    pages * Z.quot (page_size env) 1024 <= 2 ^ 53.

(** The line of iteration [i] when the sampler returned [rss] and the
    baseline is [initial_rss]. *)
Definition report (initial_rss i rss : Z) : string :=
  iteration_line i (Num.double_of_long rss)
    (Num.double_sub (Num.double_of_long rss) initial_rss).

(** What one round of either loop does to the sample counter, to the
    channels and to standard output: it always creates its channel
    and calls the sampler; it prints its line and goes on exactly when
    the sampler returns. *)
Definition round_spec (env : environment) (initial_rss : Z) (body : Z -> M unit) : Prop :=
  forall i st,
    let st' := snd (body i st) in
    samples st' = S (samples st) /\
    channels (trace st') = channels (trace st) ++ [channel_address i] /\
    match sample env (samples st) with
    | Returned rss =>
        fst (body i st) = Returned tt /\
        cout_lines (trace st') = cout_lines (trace st) ++ [report initial_rss i rss]
    | Aborted =>
        fst (body i st) = Aborted /\
        cout_lines (trace st') = cout_lines (trace st)
    end.

(** [n] rounds of a loop body, from index [i] on. *)
Fixpoint rounds (n : nat) (i : Z) (body : Z -> M unit) : M unit :=
  match n with
  | O => ret tt
  | S n' => body i ;;; rounds n' (i + 1) body
  end.

(** The shape both [trigger_mem] functions share: the baseline sample,
    three lines, then the loop. *)
Definition harness (env : environment) (body : Z -> Z -> M unit) : M unit :=
  let* rss := call_get_current_rss_mb env in
  let initial_rss := Num.double_of_long rss in
  cout ("PID: " +:+ Num.to_string (pid env)) ;;;
  cout ("Initial RSS: " +:+ Num.fixed2 initial_rss +:+ " MB") ;;;
  cout "---------------------------------------------------------" ;;;
  for_iterations (body initial_rss).

(** The channels of a complete run. *)
Definition all_channels : list string :=
  map (fun k => channel_address (Z.of_nat k)) (seq 0 50).

End Statements.

(* ===================================================================== *)
(** * Concrete surroundings *)
(* ===================================================================== *)

Module Fixtures.
Import Driver.

(** A status line as the kernel prints it; the 24th field, 2560, is the
    resident page count, the 25th is the resident-set limit. *)
Definition stat_line : string :=
  "4242 (test-mem-leak) S 4100 4242 4100 34816 4242 4194304 1520 0 3 0 12 7 0 0 20 0 5 0 8812345 104857600 2560 18446744073709551615 1 1 0 0 0 0 0 0 0 0 0 0 17 3 0 0 0 0 0".

(** The status line of a later call: 3072 resident pages. *)
Definition stat_line_later : string :=
  "4242 (test-mem-leak) S 4100 4242 4100 34816 4242 4194304 1644 0 3 0 14 9 0 0 20 0 5 0 8812345 106954752 3072 18446744073709551615 1 1 0 0 0 0 0 0 0 0 0 0 17 3 0 0 0 0 0".

Definition growing_stat (n : nat) : option string :=
  match n with
  | O => Some stat_line
  | S _ => Some stat_line_later
  end.

Definition growing_pages (n : nat) : Z :=
  match n with O => 2560 | S _ => 3072 end.

(** A Linux machine with 4 KiB pages and a writable [/tmp]. *)
Definition env_linux : environment :=
  mk_environment growing_stat 4096 (fun _ => 0) false 4242 (fun _ => true).

(** The same machine with a [/tmp] the process may not write to. *)
Definition env_readonly : environment :=
  mk_environment growing_stat 4096 (fun _ => 0) false 4242 (fun _ => false).

(** A machine on which [/proc/self/stat] cannot be opened. *)
Definition env_no_proc : environment :=
  mk_environment (fun _ => None) 4096 (fun _ => 0) false 4242 (fun _ => true).

(** Nothing on disk yet, nothing sampled, nothing printed. *)
Definition st_fresh : state := mk_state ∅ 0 [].

(** The fixture of the read variant is in place. *)
Definition st_fixture : state :=
  mk_state {[ "/tmp/tmp_mem_test_file"%string := zeros ReadVariant.ARBITRARY_FILE_SIZE ]} 0 [].

(** An earlier run has left three bytes at the scratch path of the write
    variant. *)
Definition st_scratch_left : state :=
  mk_state {[ "/tmp/test_file.txt"%string := [x01; x02; x03] ]} 0 [].

End Fixtures.

(* ===================================================================== *)
(** * Facts about numbers *)
(* ===================================================================== *)

Module NumFacts.
Import Num.

Lemma round53_exact z : - 2 ^ 53 <= z <= 2 ^ 53 -> round53 z = z.
Proof.
  intros Hz. unfold round53.
  destruct (Z.eq_dec (Z.abs z) (2 ^ 53)) as [Heq | Hne].
  - rewrite Heq.
    replace (Z.log2 (2 ^ 53) - 52) with 1 by (rewrite Z.log2_pow2 by lia; lia).
    cbn [Z.leb Z.compare].
    change (2 ^ 1) with 2. change (2 / 2) with 1.
    replace (2 ^ 53 mod 2) with 0 by reflexivity.
    cbn [Z.ltb Z.compare].
    replace (2 ^ 53 / 2) with (2 ^ 52) by reflexivity.
    replace (Z.even (2 ^ 52)) with true by reflexivity.
    replace (2 ^ 52 * 2) with (Z.abs z) by (rewrite Heq; reflexivity).
    rewrite Z.mul_comm. apply Z.abs_sgn.
  - assert (Hlog : Z.log2 (Z.abs z) - 52 <= 0).
    { destruct (Z.eq_dec (Z.abs z) 0) as [H0 | H0].
      - rewrite H0. cbn. lia.
      - assert (Z.log2 (Z.abs z) < 53); [| lia].
        apply Z.log2_lt_pow2; lia. }
    apply Z.leb_le in Hlog. rewrite Hlog. reflexivity.
Qed.

Lemma wrap_long_exact z : LONG_MIN <= z <= LONG_MAX -> wrap_long z = z.
Proof.
  unfold LONG_MIN, LONG_MAX, wrap_long. intros Hz.
  rewrite Z.mod_small; lia.
Qed.

Lemma round_half_even_whole n : round_half_even n 1 = n.
Proof.
  unfold round_half_even. rewrite Z.div_1_r, Z.mod_1_r. reflexivity.
Qed.

(** A double that holds an integer prints as the integer followed by
    two zero decimals. *)
Lemma fixed2_whole z :
  fixed2 z = (if z <? 0 then "-" else "") +:+ to_string (Z.abs z) +:+ ".00".
Proof.
  unfold fixed2, fixed2_ratio. rewrite round_half_even_whole.
  rewrite Z.div_mul by lia. rewrite Z.mod_mul by lia. reflexivity.
Qed.

Example fixed2_12 : fixed2 12 = "12.00"%string.
Proof. reflexivity. Qed.

Example fixed2_minus_3 : fixed2 (-3) = "-3.00"%string.
Proof. reflexivity. Qed.

Example fixed2_ratio_50 : fixed2_ratio (50 * 1024 * 1024) (1024 * 1024) = "50.00"%string.
Proof. reflexivity. Qed.

Example round53_tie : round53 (2 ^ 55 + 1020) = 2 ^ 55 + 1024.
Proof. reflexivity. Qed.

End NumFacts.

(* ===================================================================== *)
(** * The sampler reads the fields of the status line in order *)
(* ===================================================================== *)

Module SamplerFacts.
Import IStream Sampler Words Statements.

Lemma skipws_head s c r : skipws s = String c r -> isspace c = false.
Proof.
  induction s as [| a s IH]; cbn; [discriminate |].
  destruct (isspace a) eqn:Ha; [exact IH |].
  intros [= <- <-]. exact Ha.
Qed.

Lemma fields_space c s : isspace c = true -> fields (String c s) = fields s.
Proof. intros Hc. unfold fields. cbn. rewrite Hc. reflexivity. Qed.

Lemma fields_skipws s : fields (skipws s) = fields s.
Proof.
  induction s as [| a s IH]; cbn [skipws]; [reflexivity |].
  destruct (isspace a) eqn:Ha; [| reflexivity].
  rewrite IH. symmetry. apply fields_space, Ha.
Qed.

(** The first piece of a text is its leading word; the fields of what
    follows the word are the fields among the other pieces. *)
Lemma split_ws_take_word s :
  exists ws,
    split_ws s = fst (take_word s) :: ws /\
    List.filter (fun w => negb (empty w)) ws = fields (snd (take_word s)).
Proof.
  induction s as [| a s (ws & Hsplit & Hrest)]; cbn.
  - exists []. split; reflexivity.
  - destruct (isspace a) eqn:Ha.
    + exists (split_ws s). split; [reflexivity |].
      cbn. symmetry. apply fields_space, Ha.
    + rewrite Hsplit. destruct (take_word s) as [w rest]. cbn in *.
      exists ws. split; [reflexivity | exact Hrest].
Qed.

Lemma fields_take_word c s :
  isspace c = false ->
  fields (String c s) = fst (take_word (String c s)) :: fields (snd (take_word (String c s))).
Proof.
  intros Hc. destruct (split_ws_take_word (String c s)) as (ws & Hsplit & Hrest).
  assert (Hw : empty (fst (take_word (String c s))) = false).
  { cbn [take_word]. rewrite Hc. destruct (take_word s). reflexivity. }
  unfold fields at 1. rewrite Hsplit. cbn [List.filter].
  rewrite Hw, Hrest. reflexivity.
Qed.

Lemma fields_nonempty line f : f ∈ fields line -> empty f = false.
Proof.
  unfold fields. rewrite list_elem_of_In, filter_In.
  intros [_ H]. destruct (empty f); [discriminate | reflexivity].
Qed.

(** Extracting a string from a good stream yields the next field. *)
Lemma extract_string_field o text var f fs :
  fields text = f :: fs ->
  exists text',
    extract_string var (mk_ifstream o text false) = (f, mk_ifstream o text' false) /\
    fields text' = fs.
Proof.
  intros Hf. unfold extract_string. cbn [failbit pending is_open].
  rewrite <- fields_skipws in Hf.
  destruct (skipws text) as [| c r] eqn:Hskip; [discriminate |].
  apply skipws_head in Hskip.
  rewrite (fields_take_word _ _ Hskip) in Hf.
  destruct (take_word (String c r)) as [w rest]. cbn in Hf.
  injection Hf as -> Hfs. exists rest. split; [reflexivity | exact Hfs].
Qed.

Lemma take_digits_word s :
  fst (take_digits (fst (take_word s))) = fst (take_digits s).
Proof.
  induction s as [| a s IH]; cbn; [reflexivity |].
  destruct (isdigit a) eqn:Hd.
  - assert (Hs : isspace a = false).
    { unfold isdigit in Hd. unfold isspace. lia. }
    rewrite Hs. destruct (take_word s) as [w rest]. cbn in *.
    rewrite Hd. destruct (take_digits w), (take_digits s). cbn in *. congruence.
  - destruct (isspace a); [reflexivity |].
    destruct (take_word s) as [w rest]. cbn. rewrite Hd. reflexivity.
Qed.

Lemma scan_long_stored text :
  fst (fst (scan_long text)) =
  match text with
  | String c rest =>
      if Ascii.eqb c "-" then stored true (fst (take_digits rest))
      else if Ascii.eqb c "+" then stored false (fst (take_digits rest))
      else stored false (fst (take_digits text))
  | EmptyString => 0
  end.
Proof.
  unfold scan_long. destruct text as [| c rest]; [reflexivity |].
  destruct (Ascii.eqb c "-"); [| destruct (Ascii.eqb c "+")];
    match goal with |- context [take_digits ?b] => destruct (take_digits b) as [d r] end;
    destruct d; reflexivity.
Qed.

(** Scanning a number in front of a text is scanning its first word. *)
Lemma scan_long_word c r :
  isspace c = false ->
  fst (fst (scan_long (String c r))) = long_of_field (fst (take_word (String c r))).
Proof.
  intros Hc. unfold long_of_field. rewrite !scan_long_stored.
  pose proof (take_digits_word (String c r)) as Hall.
  pose proof (take_digits_word r) as Htail.
  cbn [take_word] in *. rewrite Hc in *.
  destruct (take_word r) as [w rest]. cbn [fst] in *.
  destruct (Ascii.eqb c "-"); [| destruct (Ascii.eqb c "+")]; congruence.
Qed.

(** Extracting a [long] from a good stream stores the number of the next
    field. *)
Lemma extract_long_field o text var f fs :
  fields text = f :: fs ->
  fst (extract_long var (mk_ifstream o text false)) = long_of_field f.
Proof.
  intros Hf. unfold extract_long. cbn [failbit pending is_open].
  rewrite <- fields_skipws in Hf.
  destruct (skipws text) as [| c r] eqn:Hskip; [discriminate |].
  apply skipws_head in Hskip.
  rewrite (fields_take_word _ _ Hskip) in Hf.
  assert (Hw : f = fst (take_word (String c r))) by congruence.
  rewrite Hw, <- (scan_long_word _ _ Hskip).
  destruct (scan_long (String c r)) as [[v bad] rest]. reflexivity.
Qed.

End SamplerFacts.

Module SamplerTheorems.
Import IStream Sampler Words Statements SamplerFacts.

(** One [stream >> var] of the chain in [get_current_rss_mb]. *)
Ltac next_field :=
  match goal with
  | Hf : fields ?text = ?f :: ?fs
    |- context [extract_string ?var (mk_ifstream ?o ?text false)] =>
      let text' := fresh "text" in
      let He := fresh "He" in
      let Hf' := fresh "Hf" in
      destruct (extract_string_field o text var f fs Hf) as (text' & He & Hf');
      rewrite He; clear He Hf; cbv beta iota
  end.

(** With at least 24 fields on the status line the sampler returns, and
    the value of [rss] it computes with is the number of field 23. *)
Lemma get_current_rss_mb_field_23 line page_size rss0 ndebug f :
  fields line !! 23%nat = Some f ->
  get_current_rss_mb (Some line) page_size rss0 ndebug =
  Returned (mb_of_rss (long_of_field f) page_size).
Proof.
  intros H23.
  destruct (fields line) as [| f0 l] eqn:Hf; [discriminate |].
  assert (Hstate : forall x, l !! 1%nat = Some x -> empty x = false).
  { intros x Hx. apply (fields_nonempty line). rewrite Hf.
    apply list_elem_of_further. eapply list_elem_of_lookup_2, Hx. }
  do 23 (destruct l as [| ? l]; [discriminate |]).
  injection H23 as ->.
  specialize (Hstate _ eq_refl).
  unfold get_current_rss_mb, open. cbv zeta.
  do 23 next_field.
  match goal with
  | Hf : fields ?text = ?f :: ?fs |- context [extract_long ?var ?st] =>
      pose proof (extract_long_field true text var f fs Hf) as Hrss;
      destruct (extract_long var st) as [rss st']
  end.
  cbn [fst] in Hrss. subst rss.
  rewrite Hstate, andb_false_r. reflexivity.
Qed.

(** Without a source nothing is extracted: [state] stays empty and
    [rss] keeps its indeterminate value. *)
Lemma get_current_rss_mb_unopened page_size rss0 ndebug :
  get_current_rss_mb None page_size rss0 ndebug =
  if ndebug then Returned (mb_of_rss rss0 page_size) else Aborted.
Proof. destruct ndebug; reflexivity. Qed.

Lemma mb_of_rss_exact rss page_size :
  - 2 ^ 53 <= rss * Z.quot page_size 1024 <= 2 ^ 53 ->
  mb_of_rss rss page_size = megabytes rss page_size.
Proof.
  intros Hr. unfold mb_of_rss, megabytes, Num.long_of_double_div, Num.double_of_long.
  rewrite NumFacts.wrap_long_exact by (unfold Num.LONG_MIN, Num.LONG_MAX; lia).
  rewrite NumFacts.round53_exact by exact Hr. reflexivity.
Qed.

Lemma megabytes_nonneg rss page_size :
  0 <= rss -> 0 <= page_size -> 0 <= megabytes rss page_size.
Proof.
  intros Hr Hp. unfold megabytes.
  apply Z.quot_pos; [| lia].
  apply Z.mul_nonneg_nonneg; [exact Hr |].
  apply Z.quot_pos; lia.
Qed.

End SamplerTheorems.

(* ===================================================================== *)
(** * The driver loop *)
(* ===================================================================== *)

Module DriverFacts.
Import Driver Statements.
Local Open Scope driver_scope.

Lemma cout_lines_app t u : cout_lines (t ++ u) = cout_lines t ++ cout_lines u.
Proof. apply omap_app. Qed.

Lemma channels_app t u : channels (t ++ u) = channels t ++ channels u.
Proof. apply omap_app. Qed.

Lemma cout_lines_cout t l : cout_lines (t ++ [Cout l]) = cout_lines t ++ [l].
Proof. apply cout_lines_app. Qed.

Lemma cout_lines_cerr t l : cout_lines (t ++ [Cerr l]) = cout_lines t.
Proof. rewrite cout_lines_app. apply app_nil_r. Qed.

Lemma cout_lines_channel t a : cout_lines (t ++ [CreateChannel a]) = cout_lines t.
Proof. rewrite cout_lines_app. apply app_nil_r. Qed.

Lemma cout_lines_sleep t ms : cout_lines (t ++ [SleepFor ms]) = cout_lines t.
Proof. rewrite cout_lines_app. apply app_nil_r. Qed.

Lemma channels_channel t a : channels (t ++ [CreateChannel a]) = channels t ++ [a].
Proof. apply channels_app. Qed.

Lemma channels_cout t l : channels (t ++ [Cout l]) = channels t.
Proof. rewrite channels_app. apply app_nil_r. Qed.

Lemma channels_cerr t l : channels (t ++ [Cerr l]) = channels t.
Proof. rewrite channels_app. apply app_nil_r. Qed.

Lemma channels_sleep t ms : channels (t ++ [SleepFor ms]) = channels t.
Proof. rewrite channels_app. apply app_nil_r. Qed.

Lemma cout_lines_remove t p r : cout_lines (t ++ [Remove p r]) = cout_lines t.
Proof. rewrite cout_lines_app. apply app_nil_r. Qed.

Lemma channels_remove t p r : channels (t ++ [Remove p r]) = channels t.
Proof. rewrite channels_app. apply app_nil_r. Qed.

Create Rewrite HintDb trace.
#[export] Hint Rewrite cout_lines_cout cout_lines_cerr cout_lines_channel cout_lines_sleep
  cout_lines_remove channels_channel channels_cout channels_cerr channels_sleep
  channels_remove : trace.

(** Unfold the monad down to state records, without touching the data. *)
Ltac step :=
  unfold bind, ret, cout, cerr, create_channel, sleep_for, emit,
    call_get_current_rss_mb, ofstream_open, ofstream_write, std_remove;
  cbn [fst snd files samples trace negb].

Section WithEnvironment.
Variable env : environment.

(** The loop ends on its test: with more fuel than iterations left it
    runs exactly the rounds from [i] up to [NUM_ITERATIONS - 1]. *)
Lemma for_loop_rounds fuel :
  forall i body,
    (Z.to_nat (NUM_ITERATIONS - i) < fuel)%nat ->
    for_loop fuel i body = rounds (Z.to_nat (NUM_ITERATIONS - i)) i body.
Proof.
  induction fuel as [| fuel IH]; intros i body Hfuel; [lia |].
  cbn [for_loop]. destruct (Z.ltb_spec i NUM_ITERATIONS) as [Hlt | Hge].
  - replace (Z.to_nat (NUM_ITERATIONS - i)) with (S (Z.to_nat (NUM_ITERATIONS - (i + 1)))) by lia.
    cbn [rounds]. rewrite IH by lia. reflexivity.
  - replace (Z.to_nat (NUM_ITERATIONS - i)) with 0%nat by lia. reflexivity.
Qed.

Lemma for_iterations_rounds body : for_iterations body = rounds 50 0 body.
Proof. unfold for_iterations. rewrite for_loop_rounds; [reflexivity | cbn; lia]. Qed.

Lemma rounds_run initial_rss body :
  round_spec env initial_rss body ->
  forall n i st,
    samples_return env (samples st) n ->
    let st' := snd (rounds n i body st) in
    fst (rounds n i body st) = Returned tt /\
    samples st' = (samples st + n)%nat /\
    channels (trace st') =
      channels (trace st) ++ map (fun k => channel_address (i + Z.of_nat k)) (seq 0 n) /\
    cout_lines (trace st') =
      cout_lines (trace st) ++
      map (fun k => report initial_rss (i + Z.of_nat k) (sampled env (samples st + k))) (seq 0 n).
Proof.
  intros Hbody n. induction n as [| n IH]; intros i st Hok.
  - cbn. rewrite !app_nil_r. repeat split; lia.
  - cbn [rounds]. unfold bind.
    destruct (Hbody i st) as (Hn & Hch & Hout).
    pose proof (Hok 0%nat ltac:(lia)) as H0. rewrite Nat.add_0_r in H0.
    destruct (body i st) as [o st1]. cbn [fst snd] in *.
    unfold sampled at 1.
    destruct (sample env (samples st)) as [rss |] eqn:Hs; [| contradiction].
    destruct Hout as [-> Hout].
    assert (Hok1 : samples_return env (samples st1) n).
    { intros j Hj. rewrite Hn. replace (S (samples st) + j)%nat with (samples st + S j)%nat by lia.
      apply Hok. lia. }
    destruct (IH (i + 1) st1 Hok1) as (Hr & Hn' & Hch' & Hout').
    split; [exact Hr |]. split; [lia |].
    cbn [seq map].
    rewrite Hch', Hch, Hout', Hout, <- !(seq_shift n 0), !map_map, <- !app_assoc.
    cbn [app]. rewrite Nat.add_0_r, Z.add_0_r, Hs.
    split; apply (f_equal (app _)), (f_equal (cons _)), map_ext; intros k.
    + apply (f_equal channel_address). lia.
    + rewrite Hn.
      replace (i + 1 + Z.of_nat k) with (i + Z.of_nat (S k)) by lia.
      replace (S (samples st) + k)%nat with (samples st + S k)%nat by lia.
      reflexivity.
Qed.

(** Whatever the sampler does, the rounds that start create the channels
    of consecutive indices, one each. *)
Lemma rounds_channels initial_rss body :
  round_spec env initial_rss body ->
  forall n i st,
    exists m, (m <= n)%nat /\
      channels (trace (snd (rounds n i body st))) =
      channels (trace st) ++ map (fun k => channel_address (i + Z.of_nat k)) (seq 0 m).
Proof.
  intros Hbody n. induction n as [| n IH]; intros i st.
  - exists 0%nat. cbn. rewrite app_nil_r. split; [lia | reflexivity].
  - cbn [rounds]. unfold bind.
    destruct (Hbody i st) as (_ & Hch & Hout).
    destruct (body i st) as [o st1]. cbn [fst snd] in *.
    destruct (sample env (samples st)); destruct Hout as [-> _].
    + destruct (IH (i + 1) st1) as (m & Hm & Hc).
      exists (S m). split; [lia |].
      rewrite Hc, Hch. cbn [seq map].
      rewrite <- (seq_shift m 0), map_map, <- app_assoc, Z.add_0_r. cbn [app].
      apply (f_equal (app _)), (f_equal (cons _)), map_ext. intros k.
      apply (f_equal channel_address). lia.
    + exists 1%nat. split; [lia |]. cbn [snd seq map]. rewrite Hch, Z.add_0_r. reflexivity.
Qed.

End WithEnvironment.

End DriverFacts.

Module HarnessFacts.
Import IStream Sampler Words Driver Statements SamplerTheorems DriverFacts.
Local Open Scope driver_scope.

Section WithEnvironment.
Variable env : environment.

Lemma read_trigger_mem_harness path :
  ReadVariant.trigger_mem env path = harness env (ReadVariant.iteration env path).
Proof. reflexivity. Qed.

Lemma write_trigger_mem_harness :
  WriteVariant.trigger_mem env = harness env (WriteVariant.iteration env "/tmp/test_file.txt").
Proof. reflexivity. Qed.

Lemma read_iteration_round path initial_rss :
  round_spec env initial_rss (ReadVariant.iteration env path initial_rss).
Proof.
  intros i st. cbv zeta. unfold ReadVariant.iteration, ReadVariant.read_file. step.
  destruct (files st !! path); step;
    destruct (sample env (samples st)); step;
    autorewrite with trace; repeat split; reflexivity.
Qed.

Lemma write_iteration_round path initial_rss :
  round_spec env initial_rss (WriteVariant.iteration env path initial_rss).
Proof.
  intros i st. cbv zeta. unfold WriteVariant.iteration, WriteVariant.write_file. step.
  destruct (files st !! path); destruct (writable env path); step;
    destruct (sample env (samples st)); step;
    autorewrite with trace; repeat split; reflexivity.
Qed.

(** The baseline sample does not return: nothing is printed and no
    iteration starts. *)
Lemma harness_aborts body st :
  sample env (samples st) = Aborted ->
  harness env body st = (Aborted, mk_state (files st) (S (samples st)) (trace st)).
Proof. intros Hs. unfold harness. step. rewrite Hs. reflexivity. Qed.

(** All 51 samples return: the loop runs [NUM_ITERATIONS] rounds. *)
Lemma harness_completes body st :
  (forall initial_rss, round_spec env initial_rss (body initial_rss)) ->
  samples_return env (samples st) 51 ->
  let st' := snd (harness env body st) in
  let initial_rss := Num.double_of_long (sampled env (samples st)) in
  fst (harness env body st) = Returned tt /\
  samples st' = (samples st + 51)%nat /\
  channels (trace st') =
    channels (trace st) ++ map (fun k => channel_address (Z.of_nat k)) (seq 0 50) /\
  cout_lines (trace st') =
    cout_lines (trace st) ++
    [ "PID: " +:+ Num.to_string (pid env);
      "Initial RSS: " +:+ Num.fixed2 initial_rss +:+ " MB";
      "---------------------------------------------------------" ] ++
    map (fun k => report initial_rss (Z.of_nat k) (sampled env (samples st + S k))) (seq 0 50).
Proof.
  intros Hbody Hok. cbv zeta. unfold harness, sampled at 1 2. step.
  pose proof (Hok 0%nat ltac:(lia)) as H0. rewrite Nat.add_0_r in H0.
  destruct (sample env (samples st)) as [rss |] eqn:Hs; [| contradiction].
  rewrite for_iterations_rounds.
  match goal with |- context [rounds 50 0 ?b ?s] =>
    destruct (rounds_run env _ b (Hbody _) 50 0 s) as (Hr & Hn & Hch & Hout)
  end.
  { intros j Hj. cbn [samples].
    replace (S (samples st) + j)%nat with (samples st + S j)%nat by lia.
    apply Hok. lia. }
  cbn [samples trace] in Hn, Hch, Hout.
  autorewrite with trace in Hch, Hout.
  split; [exact Hr |]. split; [lia |]. split; [exact Hch |].
  rewrite Hout, <- !app_assoc. cbn [app].
  apply (f_equal (app _)). do 3 apply (f_equal (cons _)). apply map_ext. intros k.
  replace (S (samples st) + k)%nat with (samples st + S k)%nat by lia.
  reflexivity.
Qed.

(** Whatever the sampler does, a run creates the channels of the
    iterations it starts, in order. *)
Lemma harness_channels body st :
  (forall initial_rss, round_spec env initial_rss (body initial_rss)) ->
  exists m, (m <= 50)%nat /\
    channels (trace (snd (harness env body st))) =
    channels (trace st) ++ map (fun k => channel_address (Z.of_nat k)) (seq 0 m).
Proof.
  intros Hbody. unfold harness. step.
  destruct (sample env (samples st)) as [rss |].
  - rewrite for_iterations_rounds.
    match goal with |- context [rounds 50 0 ?b ?s] =>
      destruct (rounds_channels env _ b (Hbody _) 50 0 s) as (m & Hm & Hc)
    end.
    exists m. split; [exact Hm |]. rewrite Hc. cbn [trace].
    autorewrite with trace. reflexivity.
  - exists 0%nat. cbn [snd trace seq map]. rewrite app_nil_r. split; [lia | reflexivity].
Qed.

End WithEnvironment.

Lemma map_fmap {A B} (f : A -> B) (l : list A) : map f l = f <$> l.
Proof. induction l as [| a l IH]; [reflexivity |]. cbn. rewrite IH. reflexivity. Qed.

(** A well-formed status line makes the sampler return the megabytes of
    its page count. *)
Lemma status_sample env n pages :
  0 <= page_size env ->
  status_reports env n pages ->
  sample env n = Returned (megabytes pages (page_size env)).
Proof.
  intros Hps (line & f & Hline & Hf & Hpages & H0 & Hmax).
  unfold sample. rewrite Hline, (get_current_rss_mb_field_23 _ _ _ _ _ Hf), Hpages.
  rewrite mb_of_rss_exact; [reflexivity |].
  pose proof (Z.quot_pos (page_size env) 1024 Hps ltac:(lia)). nia.
Qed.

Lemma megabytes_small pages page_bytes :
  0 <= pages -> 0 <= page_bytes -> pages * Z.quot page_bytes 1024 <= 2 ^ 53 ->
  0 <= megabytes pages page_bytes <= 2 ^ 53.
Proof.
  intros Hp Hb Hmax. split; [apply megabytes_nonneg; assumption |].
  unfold megabytes.
  pose proof (Z.quot_pos page_bytes 1024 Hb ltac:(lia)) as Hk.
  assert (Hx : 0 <= pages * Z.quot page_bytes 1024) by nia.
  rewrite Z.quot_div_nonneg by lia.
  pose proof (Z.div_le_upper_bound (pages * Z.quot page_bytes 1024) 1024
                (pages * Z.quot page_bytes 1024) ltac:(lia) ltac:(lia)).
  lia.
Qed.

(** The [i]-th line of the loop in the output of a complete run. *)
Lemma harness_line env body st i :
  (forall initial_rss, round_spec env initial_rss (body initial_rss)) ->
  samples_return env (samples st) 51 ->
  (i < 50)%nat ->
  cout_lines (trace (snd (harness env body st))) !! (length (cout_lines (trace st)) + 3 + i)%nat =
  Some (report (Num.double_of_long (sampled env (samples st))) (Z.of_nat i)
               (sampled env (samples st + S i))).
Proof.
  intros Hbody Hok Hi.
  destruct (harness_completes env body st Hbody Hok) as (_ & _ & _ & Hout).
  cbv zeta in Hout. rewrite Hout.
  rewrite lookup_app_r by lia.
  replace (length (cout_lines (trace st)) + 3 + i - length (cout_lines (trace st)))%nat
    with (S (S (S i))) by lia.
  cbn [app]. change (?a :: ?b :: ?c :: ?l) with ([a; b; c] ++ l).
  rewrite (lookup_app_r [_; _; _]) by (cbn [length]; lia).
  cbn [length]. replace (S (S (S i)) - 3)%nat with i by lia.
  rewrite map_fmap, list_lookup_fmap, lookup_seq_lt by lia.
  reflexivity.
Qed.

End HarnessFacts.

(* ===================================================================== *)
(** * The buffer workloads and the file system *)
(* ===================================================================== *)

Module FileFacts.
Import Driver Statements DriverFacts.
Local Open Scope driver_scope.

Lemma zeros_length n : 0 <= n -> Z.of_nat (length (zeros n)) = n.
Proof. intros Hn. unfold zeros. rewrite length_replicate. lia. Qed.

Lemma take_zeros n : take (Z.to_nat n) (zeros n) = zeros n.
Proof. unfold zeros. apply take_ge. rewrite length_replicate. lia. Qed.

(** A read of [n] bytes from a file that has them fills a buffer of [n]
    bytes with the first [n] bytes of the file. *)
Lemma ifstream_read_full content n :
  0 <= n <= Z.of_nat (length content) ->
  ifstream_read content (zeros n) n = (take (Z.to_nat n) content, n).
Proof.
  intros Hn. unfold ifstream_read.
  assert (Hlen : length (take (Z.to_nat n) content) = Z.to_nat n)
    by (apply length_take_le; lia).
  rewrite Hlen. unfold zeros. rewrite drop_replicate, Nat.sub_diag.
  cbn [replicate]. rewrite app_nil_r. apply (f_equal (pair _)). lia.
Qed.

(** A short file leaves the tail of the buffer as it was. *)
Lemma ifstream_read_short content n :
  0 <= Z.of_nat (length content) <= n ->
  ifstream_read content (zeros n) n =
  (content ++ zeros (n - Z.of_nat (length content)), Z.of_nat (length content)).
Proof.
  intros Hn. unfold ifstream_read.
  rewrite take_ge by lia. unfold zeros. rewrite drop_replicate.
  replace (Z.to_nat n - length content)%nat with (Z.to_nat (n - Z.of_nat (length content))) by lia.
  reflexivity.
Qed.

Section WithEnvironment.
Variable env : environment.

Lemma read_file_present path content st :
  files st !! path = Some content ->
  ReadVariant.read_file path st =
  (Returned (Some (ifstream_read content (zeros ReadVariant.READ_SIZE) ReadVariant.READ_SIZE)), st).
Proof. intros Hf. unfold ReadVariant.read_file. rewrite Hf. reflexivity. Qed.

Lemma read_file_missing path st :
  files st !! path = None ->
  ReadVariant.read_file path st =
  (Returned None,
   mk_state (files st) (samples st)
     (trace st ++ [Cerr ("Error: File '" +:+ path +:+ "' not found.")])).
Proof. intros Hf. unfold ReadVariant.read_file. rewrite Hf. reflexivity. Qed.

Lemma write_file_writable path st :
  writable env path = true ->
  WriteVariant.write_file env path st =
  (Returned tt,
   mk_state (<[path := zeros WriteVariant.WRITE_SIZE]> (files st)) (samples st) (trace st)).
Proof.
  intros Hw. unfold WriteVariant.write_file. step. rewrite Hw. step.
  rewrite lookup_insert_eq, insert_insert_eq, take_zeros. reflexivity.
Qed.

Lemma write_file_unwritable path st :
  writable env path = false ->
  WriteVariant.write_file env path st =
  (Returned tt,
   mk_state (files st) (samples st)
     (trace st ++ [Cerr ("Error: File '" +:+ path +:+ "' not found.")])).
Proof. intros Hw. unfold WriteVariant.write_file. step. rewrite Hw. reflexivity. Qed.

Lemma std_remove_writable path st :
  writable env path = true ->
  files (snd (std_remove env path st)) !! path = None.
Proof.
  intros Hw. unfold std_remove. rewrite Hw.
  destruct (files st !! path) eqn:Hf; cbn [snd files]; [apply lookup_delete_eq | exact Hf].
Qed.

Lemma std_remove_unwritable path st :
  writable env path = false ->
  std_remove env path st =
  (Returned (-1), mk_state (files st) (samples st) (trace st ++ [Remove path (-1)])).
Proof.
  intros Hw. unfold std_remove. rewrite Hw. destruct (files st !! path); reflexivity.
Qed.

(** The loop body of the write variant decomposes into the removal,
    the write, and a remainder that leaves the files alone. *)
Lemma write_iteration_files path initial_rss i st :
  files (snd (WriteVariant.iteration env path initial_rss i st)) =
  files (snd (WriteVariant.write_file env path (snd (std_remove env path st)))).
Proof.
  unfold WriteVariant.iteration, WriteVariant.write_file. step.
  destruct (files st !! path); destruct (writable env path); step;
    destruct (sample env (samples st)); reflexivity.
Qed.

Lemma read_iteration_files path initial_rss i st :
  files (snd (ReadVariant.iteration env path initial_rss i st)) = files st.
Proof.
  unfold ReadVariant.iteration, ReadVariant.read_file. step.
  destruct (files st !! path); step; destruct (sample env (samples st)); reflexivity.
Qed.

(** The loop of the read variant leaves the files as they are: every
    invocation of [read_file] finds the fixture as the first one did. *)
Lemma read_rounds_files path initial_rss n :
  forall i st,
    files (snd (rounds n i (ReadVariant.iteration env path initial_rss) st)) = files st.
Proof.
  induction n as [| n IH]; intros i st; [reflexivity |].
  cbn [rounds]. unfold bind.
  pose proof (read_iteration_files path initial_rss i st) as Hfiles.
  destruct (ReadVariant.iteration env path initial_rss i st) as [[[] |] st1];
    cbn [snd] in *; [rewrite IH |]; exact Hfiles.
Qed.

(** [create_mock_file] returns, and neither samples nor creates
    channels. *)
Lemma write_chunks_calm fuel path chunk size written st :
  let r := ReadVariant.write_chunks fuel path chunk size written st in
  fst r = Returned tt /\ samples (snd r) = samples st /\ trace (snd r) = trace st.
Proof.
  revert written st. induction fuel as [| fuel IH]; intros written st; cbv zeta.
  - repeat split.
  - cbn [ReadVariant.write_chunks]. destruct (written <? size); [| repeat split].
    step.
    match goal with |- context [ReadVariant.write_chunks fuel path chunk size ?w ?s] =>
      exact (IH w s)
    end.
Qed.

Lemma create_mock_file_calm path size st :
  let r := ReadVariant.create_mock_file env path size st in
  fst r = Returned tt /\ samples (snd r) = samples st /\
  channels (trace (snd r)) = channels (trace st).
Proof.
  cbv zeta. unfold ReadVariant.create_mock_file. step.
  destruct (writable env path); step.
  - match goal with |- context [ReadVariant.write_chunks ?f ?p ?c ?s ?w ?st0] =>
      destruct (write_chunks_calm f p c s w st0) as (Hr & Hn & Ht);
      destruct (ReadVariant.write_chunks f p c s w st0) as [o st1]
    end.
    cbn [fst snd samples trace] in *. subst o. step. rewrite Ht.
    autorewrite with trace. repeat split. exact Hn.
  - autorewrite with trace. repeat split.
Qed.

(** The fuel of [create_mock_file] is enough: when the file can be
    created it ends up with [size] bytes. *)
Lemma write_chunks_length path chunk size fuel :
  0 < Z.of_nat (length chunk) ->
  forall written st content,
    files st !! path = Some content ->
    Z.of_nat (length content) = Z.min written size ->
    size <= written + Z.of_nat fuel * Z.of_nat (length chunk) ->
    exists content',
      files (snd (ReadVariant.write_chunks fuel path chunk size written st)) !! path
        = Some content' /\
      Z.of_nat (length content') = size.
Proof.
  intros Hchunk. induction fuel as [| fuel IH]; intros written st content Hf Hlen Hfuel.
  - exists content. split; [exact Hf | lia].
  - cbn [ReadVariant.write_chunks]. destruct (Z.ltb_spec written size) as [Hlt | Hge].
    + step. rewrite Hf. cbn [default].
      match goal with |- context [ReadVariant.write_chunks fuel path chunk size ?w ?s] =>
        apply (IH w s (content ++ take (Z.to_nat (Z.min (Z.of_nat (length chunk)) (size - written))) chunk))
      end.
      * cbn [files]. apply lookup_insert_eq.
      * rewrite length_app, length_take. lia.
      * lia.
    + exists content. split; [exact Hf | lia].
Qed.

Lemma create_mock_file_size path size st :
  writable env path = true -> 0 <= size ->
  exists content,
    files (snd (ReadVariant.create_mock_file env path size st)) !! path = Some content /\
    Z.of_nat (length content) = size.
Proof.
  intros Hw Hsize. unfold ReadVariant.create_mock_file. step. rewrite Hw. step.
  assert (Hchunk : Z.of_nat (length (zeros (1024 * 1024))) = 1024 * 1024)
    by (apply zeros_length; lia).
  match goal with |- context [ReadVariant.write_chunks ?f path ?c size 0 ?st0] =>
    destruct (write_chunks_length path c size f ltac:(lia) 0 st0 [])
      as (content & Hf & Hlen);
    [ apply lookup_insert_eq | cbn [length]; lia
    | rewrite Hchunk; pose proof (Z.mul_succ_div_gt size (1024 * 1024) ltac:(lia)); lia
    | pose proof (write_chunks_calm f path c size 0 st0) as Hcalm;
      destruct (ReadVariant.write_chunks f path c size 0 st0) as [o st1] ]
  end.
  cbv zeta in Hcalm. cbn [fst snd] in *. destruct Hcalm as (-> & _). step.
  exists content. split; [exact Hf | exact Hlen].
Qed.

End WithEnvironment.

End FileFacts.


(* ===================================================================== *)
(** * Whole runs *)
(* ===================================================================== *)

Module RunFacts.
Import Driver Statements DriverFacts HarnessFacts FileFacts.
Local Open Scope driver_scope.

Example all_channels_count : length all_channels = 50%nat.
Proof. reflexivity. Qed.

Example first_channel : all_channels !! 0%nat = Some "localhost:4000"%string.
Proof. reflexivity. Qed.

Example last_channel : all_channels !! 49%nat = Some "localhost:4049"%string.
Proof. reflexivity. Qed.

Section WithEnvironment.
Variable env : environment.

(** When all 51 calls of the sampler return, the write variant runs its
    50 rounds and [main] returns 0. *)
Lemma write_main_completes st :
  samples_return env (samples st) 51 ->
  fst (WriteVariant.main env st) = Returned 0 /\
  samples (snd (WriteVariant.main env st)) = (samples st + 51)%nat /\
  channels (trace (snd (WriteVariant.main env st))) = channels (trace st) ++ all_channels.
Proof.
  intros Hok. unfold WriteVariant.main. rewrite write_trigger_mem_harness.
  destruct (harness_completes env (WriteVariant.iteration env "/tmp/test_file.txt") st
              (write_iteration_round env _) Hok)
    as (Hr & Hn & Hch & _).
  unfold bind. destruct (harness env _ st) as [o st1]. cbn [fst snd] in *.
  subst o. unfold ret. cbn [fst snd]. repeat split; assumption.
Qed.

(** The same for the read variant, whether or not the fixture could be
    created and removed. *)
Lemma read_main_completes st :
  samples_return env (samples st) 51 ->
  fst (ReadVariant.main env st) = Returned 0 /\
  samples (snd (ReadVariant.main env st)) = (samples st + 51)%nat /\
  channels (trace (snd (ReadVariant.main env st))) = channels (trace st) ++ all_channels.
Proof.
  intros Hok. unfold ReadVariant.main. cbv zeta.
  rewrite read_trigger_mem_harness. unfold bind.
  destruct (create_mock_file_calm env "/tmp/tmp_mem_test_file" ReadVariant.ARBITRARY_FILE_SIZE st)
    as (Hr0 & Hn0 & Hch0).
  destruct (ReadVariant.create_mock_file env _ _ st) as [o0 st0]. cbn [fst snd] in *.
  subst o0. rewrite <- Hn0 in Hok.
  destruct (harness_completes env (ReadVariant.iteration env "/tmp/tmp_mem_test_file") st0
              (read_iteration_round env _) Hok)
    as (Hr & Hn & Hch & _).
  destruct (harness env _ st0) as [o st1]. cbn [fst snd] in *.
  subst o. step.
  destruct (files st1 !! "/tmp/tmp_mem_test_file"); [destruct (writable env _) |];
    step; cbn [Z.eqb negb fst snd samples trace]; autorewrite with trace;
    rewrite ?Hch, ?Hch0; repeat split; lia.
Qed.

(** When the first call of the sampler does not return, neither variant
    starts a round. *)
Lemma write_main_aborts st :
  sample env (samples st) = Aborted ->
  fst (WriteVariant.main env st) = Aborted /\
  channels (trace (snd (WriteVariant.main env st))) = channels (trace st).
Proof.
  intros Hs. unfold WriteVariant.main. rewrite write_trigger_mem_harness.
  unfold bind. rewrite (harness_aborts env _ st Hs). split; reflexivity.
Qed.

Lemma read_main_aborts st :
  sample env (samples st) = Aborted ->
  fst (ReadVariant.main env st) = Aborted /\
  channels (trace (snd (ReadVariant.main env st))) = channels (trace st).
Proof.
  intros Hs. unfold ReadVariant.main. cbv zeta.
  rewrite read_trigger_mem_harness. unfold bind.
  destruct (create_mock_file_calm env "/tmp/tmp_mem_test_file" ReadVariant.ARBITRARY_FILE_SIZE st)
    as (Hr0 & Hn0 & Hch0).
  destruct (ReadVariant.create_mock_file env _ _ st) as [o0 st0]. cbn [fst snd] in *.
  subst o0. rewrite <- Hn0 in Hs.
  rewrite (harness_aborts env _ st0 Hs). cbn [fst snd trace].
  split; [reflexivity | exact Hch0].
Qed.

End WithEnvironment.

End RunFacts.


(* ===================================================================== *)
(** * The model at work *)
(* ===================================================================== *)

Module Examples.
Import Sampler Words Driver Fixtures.

Example fields_23 : fields stat_line !! 23%nat = Some "2560"%string.
Proof. reflexivity. Qed.

Example fields_24 : fields stat_line !! 24%nat = Some "18446744073709551615"%string.
Proof. reflexivity. Qed.

Example rss_of_stat_line : get_current_rss_mb (Some stat_line) 4096 0 false = Returned 10.
Proof. reflexivity. Qed.

Example rss_unopenable : get_current_rss_mb None 4096 77 false = Aborted.
Proof. reflexivity. Qed.

Example rss_unopenable_ndebug : get_current_rss_mb None 4096 5120 true = Returned 20.
Proof. reflexivity. Qed.

Example readonly_round :
  WriteVariant.iteration env_readonly "/tmp/test_file.txt" 10 0 st_fresh =
  (Returned tt,
   mk_state ∅ 1
     [ Remove "/tmp/test_file.txt" (-1);
       Cerr "Error: File '/tmp/test_file.txt' not found.";
       CreateChannel "localhost:4000";
       Cout "Iteration 1/50: Current RSS: 10.00 MB | Total increase: +0.00 MB";
       SleepFor 100 ]).
Proof. reflexivity. Qed.

Example missing_fixture_round :
  ReadVariant.iteration env_linux "/tmp/tmp_mem_test_file" 10 7 (mk_state ∅ 1 []) =
  (Returned tt,
   mk_state ∅ 2
     [ Cerr "Error: File '/tmp/tmp_mem_test_file' not found.";
       CreateChannel "localhost:4007";
       Cout "Iteration 8/50: Current RSS: 12.00 MB | Total increase: +2.00 MB";
       SleepFor 100 ]).
Proof. reflexivity. Qed.

Example no_proc_run :
  WriteVariant.main env_no_proc st_fresh = (Aborted, mk_state ∅ 1 []).
Proof. reflexivity. Qed.

End Examples.


(* ===================================================================== *)
(** * The sampler on every input *)
(* ===================================================================== *)

Module SamplerMore.
Import IStream Sampler Words Statements SamplerFacts SamplerTheorems.

(** A stream that has failed hands back the variable it was given. *)
Lemma extract_string_failed var o text :
  extract_string var (mk_ifstream o text true) = (var, mk_ifstream o text true).
Proof. reflexivity. Qed.

Lemma fields_nil_skipws text : fields text = [] -> skipws text = EmptyString.
Proof.
  intros Hf. rewrite <- fields_skipws in Hf.
  destruct (skipws text) as [| c r] eqn:Hskip; [reflexivity |].
  apply skipws_head in Hskip. rewrite (fields_take_word _ _ Hskip) in Hf. discriminate.
Qed.

(** With no field left an extraction fails and stores nothing. *)
Lemma extract_string_no_field o text var :
  fields text = [] ->
  extract_string var (mk_ifstream o text false) = (var, mk_ifstream o EmptyString true).
Proof.
  intros Hf. unfold extract_string. cbn [failbit pending is_open].
  rewrite (fields_nil_skipws _ Hf). reflexivity.
Qed.

Lemma extract_long_no_field o text var :
  fields text = [] ->
  extract_long var (mk_ifstream o text false) = (var, mk_ifstream o EmptyString true).
Proof.
  intros Hf. unfold extract_long. cbn [failbit pending is_open].
  rewrite (fields_nil_skipws _ Hf). reflexivity.
Qed.

(** The chain of extractions on a text with fewer than 24 fields: the
    fields there are, then the one that fails, then no-ops. *)
Ltac run_short :=
  unfold get_current_rss_mb, open; cbv zeta;
  repeat next_field;
  match goal with
  | H : fields ?t = [] |- context [extract_string ?v (mk_ifstream ?o ?t false)] =>
      rewrite (extract_string_no_field o t v H)
  | H : fields ?t = [] |- context [extract_long ?v (mk_ifstream ?o ?t false)] =>
      rewrite (extract_long_no_field o t v H)
  end;
  cbv beta iota delta [extract_string extract_long failbit].

(** However it ends, a call computes its result from one value of [rss]. *)
Lemma sampler_outcomes source page_bytes rss0 assertions_off :
  get_current_rss_mb source page_bytes rss0 assertions_off = Aborted \/
  exists rss, get_current_rss_mb source page_bytes rss0 assertions_off
              = Returned (mb_of_rss rss page_bytes).
Proof.
  unfold get_current_rss_mb. cbv zeta.
  repeat match goal with
         | |- context [extract_string ?v ?s] => destruct (extract_string v s)
         end.
  match goal with |- context [extract_long ?v ?s] => destruct (extract_long v s) as [rss s'] end.
  match goal with |- context [if ?b then _ else _] => destruct b end;
    [left; reflexivity | right; exists rss; reflexivity].
Qed.

Lemma round53_long z : - 2 ^ 63 <= z <= 2 ^ 63 -> - 2 ^ 63 <= Num.round53 z <= 2 ^ 63.
Proof.
  intros Hz. unfold Num.round53.
  destruct (Z.leb_spec (Z.log2 (Z.abs z) - 52) 0) as [Hle | Hgt]; [exact Hz |].
  destruct (Z.eq_dec (Z.abs z) (2 ^ 63)) as [Hmax | Hlt].
  { assert (Hcases : z = 2 ^ 63 \/ z = - 2 ^ 63) by lia.
    destruct Hcases as [-> | ->]; vm_compute; split; discriminate. }
  set (a := Z.abs z) in *. set (e := Z.log2 a - 52) in *.
  assert (Ha : 0 < a < 2 ^ 63).
  { split; [| lia]. destruct (Z.eq_dec a 0) as [H0 | H0]; [| lia].
    subst e. rewrite H0 in Hgt. cbn in Hgt. lia. }
  assert (He : 1 <= e <= 10).
  { split; [lia |]. assert (Z.log2 a < 63) by (apply Z.log2_lt_pow2; lia). lia. }
  assert (Hulp : 0 < 2 ^ e <= 2 ^ 10).
  { split; [apply Z.pow_pos_nonneg; lia | apply Z.pow_le_mono_r; lia]. }
  assert (Hq : 0 <= a / 2 ^ e < 2 ^ 53).
  { split; [apply Z.div_pos; lia |].
    apply Z.div_lt_upper_bound; [lia |].
    rewrite <- Z.pow_add_r by lia.
    replace (e + 53) with (Z.succ (Z.log2 a)) by (subst e; lia).
    apply Z.log2_spec. lia. }
  set (q' := if a mod 2 ^ e <? 2 ^ e / 2 then a / 2 ^ e
             else if 2 ^ e / 2 <? a mod 2 ^ e then a / 2 ^ e + 1
             else if Z.even (a / 2 ^ e) then a / 2 ^ e else a / 2 ^ e + 1).
  assert (Hq' : 0 <= q' <= 2 ^ 53).
  { subst q'. destruct (_ <? _); [lia |]. destruct (_ <? _); [lia |].
    destruct (Z.even _); lia. }
  assert (Hprod : 0 <= q' * 2 ^ e <= 2 ^ 63).
  { split; [apply Z.mul_nonneg_nonneg; lia |].
    change (2 ^ 63) with (2 ^ 53 * 2 ^ 10).
    apply Z.mul_le_mono_nonneg; lia. }
  destruct z; cbn [Z.sgn]; lia.
Qed.

Lemma mb_of_rss_bounded rss page_bytes :
  - 2 ^ 53 <= mb_of_rss rss page_bytes <= 2 ^ 53.
Proof.
  unfold mb_of_rss, Num.long_of_double_div, Num.double_of_long.
  set (w := Num.wrap_long (rss * Z.quot page_bytes 1024)).
  assert (Hw : - 2 ^ 63 <= w <= 2 ^ 63).
  { subst w. unfold Num.wrap_long.
    pose proof (Z.mod_pos_bound (rss * Z.quot page_bytes 1024 + 2 ^ 63) (2 ^ 64) ltac:(lia)).
    lia. }
  pose proof (round53_long w Hw) as Hr.
  set (d := Num.round53 w) in *.
  destruct (Z.le_gt_cases 0 d) as [Hpos | Hneg].
  - rewrite Z.quot_div_nonneg by lia.
    split; [pose proof (Z.div_pos d 1024 Hpos ltac:(lia)); lia |].
    apply Z.div_le_upper_bound; lia.
  - replace d with (- (- d)) by lia. rewrite Z.quot_opp_l by lia.
    rewrite Z.quot_div_nonneg by lia.
    assert (0 <= - d / 1024 <= 2 ^ 53); [| lia].
    split; [apply Z.div_pos; lia | apply Z.div_le_upper_bound; lia].
Qed.

End SamplerMore.

(* ===================================================================== *)
(** * Whole runs, event by event *)
(* ===================================================================== *)

Module RunWords.
Import Driver Statements.

(** What a round that returns adds to the trace: what its buffer
    workload adds (a removal, an error line), then the channel, the line,
    the pause. *)
Definition round_events_after (before : list event) (initial_rss i rss : Z) : list event :=
  before ++
  [ CreateChannel (channel_address i); Cout (report initial_rss i rss); SleepFor 100 ].

(** The same when the workload adds error lines only. *)
Definition round_events (errors : list string) (initial_rss i rss : Z) : list event :=
  map Cerr errors ++
  [ CreateChannel (channel_address i); Cout (report initial_rss i rss); SleepFor 100 ].

(** What a complete run of [trigger_mem] adds to the trace when its first
    call of the sampler is call [s] and the workload of round [k] adds
    [before k]. *)
Definition run_events_after (env : environment) (before : nat -> list event) (s : nat)
    : list event :=
  let initial_rss := Num.double_of_long (sampled env s) in
  [ Cout ("PID: " +:+ Num.to_string (pid env));
    Cout ("Initial RSS: " +:+ Num.fixed2 initial_rss +:+ " MB");
    Cout "---------------------------------------------------------" ] ++
  flat_map (fun k => round_events_after (before k) initial_rss (Z.of_nat k)
                       (sampled env (s + S k)))
           (seq 0 50).

(** The same when every round adds the same error lines and nothing
    else. *)
Definition run_events (env : environment) (errors : list string) (s : nat) : list event :=
  let initial_rss := Num.double_of_long (sampled env s) in
  [ Cout ("PID: " +:+ Num.to_string (pid env));
    Cout ("Initial RSS: " +:+ Num.fixed2 initial_rss +:+ " MB");
    Cout "---------------------------------------------------------" ] ++
  flat_map (fun k => round_events errors initial_rss (Z.of_nat k) (sampled env (s + S k)))
           (seq 0 50).

(** What [std::remove] returns on a path the process may write to, for
    the files [m]: 0 when there is a file to remove. *)
Definition remove_result (m : gmap string (list byte)) (path : string) : Z :=
  match m !! path with Some _ => 0 | None => -1 end.

(** The line [read_file] and [write_file] print when the open fails. *)
Definition not_found (file_path : string) : string :=
  "Error: File '" +:+ file_path +:+ "' not found.".

End RunWords.

Module RunMore.
Import Driver Statements RunWords DriverFacts HarnessFacts FileFacts.
Local Open Scope driver_scope.

Lemma flat_map_seq_shift {A} (f : nat -> list A) n :
  forall a, flat_map f (seq (S a) n) = flat_map (fun k => f (S k)) (seq a n).
Proof.
  induction n as [| n IH]; intros a; [reflexivity |].
  cbn [seq flat_map]. rewrite IH. reflexivity.
Qed.

Lemma flat_map_pointwise {A B} (f g : A -> list B) l :
  (forall x, f x = g x) -> flat_map f l = flat_map g l.
Proof.
  intros Hfg. induction l as [| x l IH]; [reflexivity |].
  cbn [flat_map]. rewrite Hfg, IH. reflexivity.
Qed.

Lemma iter_id {A} n (x : A) : Nat.iter n (fun y => y) x = x.
Proof. induction n as [| n IH]; [reflexivity |]. cbn. exact IH. Qed.

Lemma iter_insert (path : string) (content : list byte) n (m : gmap string (list byte)) :
  Nat.iter (S n) (fun m' => <[path := content]> m') m = <[path := content]> m.
Proof.
  induction n as [| n IH]; [reflexivity |].
  rewrite Nat.iter_succ, IH. cbv beta. apply insert_insert_eq.
Qed.

Section WithEnvironment.
Variable env : environment.

Lemma samples_return_head n k :
  samples_return env n (S k) ->
  (exists rss, sample env n = Returned rss) /\ samples_return env (S n) k.
Proof.
  intros Hok. split.
  - pose proof (Hok 0%nat ltac:(lia)) as H0. rewrite Nat.add_0_r in H0.
    destruct (sample env n) as [rss |]; [exists rss; reflexivity | contradiction].
  - intros j Hj. replace (S n + j)%nat with (n + S j)%nat by lia. apply Hok. lia.
Qed.

(** Rounds that all return, for a body whose effect on the state is known
    in full: [F] on the files (which keeps the condition [P] the body
    needs), [events] on the trace, which may depend on the files the
    round finds. *)
Section Exact.
Variable F : gmap string (list byte) -> gmap string (list byte).
Variable P : gmap string (list byte) -> Prop.
Variable events : gmap string (list byte) -> Z -> Z -> list event.
Variable body : Z -> M unit.
Hypothesis P_kept : forall m, P m -> P (F m).
Hypothesis body_exact :
  forall i st rss,
    P (files st) ->
    sample env (samples st) = Returned rss ->
    body i st =
    (Returned tt,
     mk_state (F (files st)) (S (samples st)) (trace st ++ events (files st) i rss)).

Lemma rounds_exact n :
  forall i st,
    P (files st) ->
    samples_return env (samples st) n ->
    rounds n i body st =
    (Returned tt,
     mk_state (Nat.iter n F (files st)) (samples st + n)
       (trace st ++
        flat_map (fun k => events (Nat.iter k F (files st)) (i + Z.of_nat k)
                             (sampled env (samples st + k)))
                 (seq 0 n))).
Proof.
  induction n as [| n IH]; intros i st HP Hok.
  - destruct st as [fs s t]. cbn [rounds Nat.iter seq flat_map files samples trace].
    rewrite Nat.add_0_r, app_nil_r. reflexivity.
  - destruct (samples_return_head _ _ Hok) as [[rss Hs] Hok'].
    cbn [rounds]. unfold bind. rewrite (body_exact i st rss HP Hs).
    rewrite IH by (cbn [files samples]; auto).
    cbn [files samples trace seq flat_map].
    rewrite flat_map_seq_shift, <- app_assoc, Nat.add_0_r, Z.add_0_r.
    replace (sampled env (samples st)) with rss by (unfold sampled; rewrite Hs; reflexivity).
    replace (S (samples st) + n)%nat with (samples st + S n)%nat by lia.
    replace (Nat.iter n F (F (files st))) with (Nat.iter (S n) F (files st))
      by apply Nat.iter_succ_r.
    change (Nat.iter 0 F (files st)) with (files st).
    rewrite (flat_map_pointwise
               (fun k => events (Nat.iter k F (F (files st))) (i + 1 + Z.of_nat k)
                           (sampled env (S (samples st) + k)))
               (fun k => events (Nat.iter (S k) F (files st)) (i + Z.of_nat (S k))
                           (sampled env (samples st + S k)))).
    + reflexivity.
    + intros k. replace (i + 1 + Z.of_nat k) with (i + Z.of_nat (S k)) by lia.
      replace (S (samples st) + k)%nat with (samples st + S k)%nat by lia.
      rewrite <- Nat.iter_succ_r. reflexivity.
Qed.

End Exact.

(** A complete run of the common shape of [trigger_mem], for such a
    body. *)
Lemma harness_exact
    (F : gmap string (list byte) -> gmap string (list byte))
    (P : gmap string (list byte) -> Prop)
    (before : gmap string (list byte) -> list event) (body : Z -> Z -> M unit) st :
  (forall m, P m -> P (F m)) ->
  (forall initial_rss i st rss,
      P (files st) ->
      sample env (samples st) = Returned rss ->
      body initial_rss i st =
      (Returned tt,
       mk_state (F (files st)) (S (samples st))
         (trace st ++ round_events_after (before (files st)) initial_rss i rss))) ->
  P (files st) ->
  samples_return env (samples st) 51 ->
  harness env body st =
  (Returned tt,
   mk_state (Nat.iter 50 F (files st)) (samples st + 51)
     (trace st ++
      run_events_after env (fun k => before (Nat.iter k F (files st))) (samples st))).
Proof.
  intros HF Hbody HP Hok.
  destruct (samples_return_head _ _ Hok) as [[rss Hs] Hok'].
  unfold harness. step. rewrite Hs, for_iterations_rounds.
  rewrite (rounds_exact F P
             (fun m => round_events_after (before m) (Num.double_of_long rss))
             (body (Num.double_of_long rss)) HF (Hbody _) 50 0)
    by (cbn [files samples]; assumption).
  cbn [files samples trace]. unfold run_events_after. cbv zeta.
  replace (sampled env (samples st)) with rss by (unfold sampled; rewrite Hs; reflexivity).
  replace (S (samples st) + 50)%nat with (samples st + 51)%nat by lia.
  rewrite <- !app_assoc. cbn [app].
  rewrite (flat_map_pointwise
             (fun k => round_events_after (before (Nat.iter k F (files st)))
                         (Num.double_of_long rss) (0 + Z.of_nat k)
                         (sampled env (S (samples st) + k)))
             (fun k => round_events_after (before (Nat.iter k F (files st)))
                         (Num.double_of_long rss) (Z.of_nat k)
                         (sampled env (samples st + S k)))).
  - reflexivity.
  - intros k. rewrite Z.add_0_l.
    replace (S (samples st) + k)%nat with (samples st + S k)%nat by lia. reflexivity.
Qed.

(** The same when every round adds the same error lines and nothing
    else. *)
Lemma harness_exact_errors
    (F : gmap string (list byte) -> gmap string (list byte))
    (P : gmap string (list byte) -> Prop)
    (errors : list string) (body : Z -> Z -> M unit) st :
  (forall m, P m -> P (F m)) ->
  (forall initial_rss i st rss,
      P (files st) ->
      sample env (samples st) = Returned rss ->
      body initial_rss i st =
      (Returned tt,
       mk_state (F (files st)) (S (samples st))
         (trace st ++ round_events errors initial_rss i rss))) ->
  P (files st) ->
  samples_return env (samples st) 51 ->
  harness env body st =
  (Returned tt,
   mk_state (Nat.iter 50 F (files st)) (samples st + 51)
     (trace st ++ run_events env errors (samples st))).
Proof.
  intros HF Hbody HP Hok.
  exact (harness_exact F P (fun _ => map Cerr errors) body st HF Hbody HP Hok).
Qed.

Lemma run_events_after_ext (before before' : nat -> list event) s :
  (forall k, before k = before' k) ->
  run_events_after env before s = run_events_after env before' s.
Proof.
  intros Hsame. unfold run_events_after. cbv zeta. apply (f_equal (app _)).
  apply flat_map_pointwise. intros k. rewrite Hsame. reflexivity.
Qed.

(** The four ways a round of the two loops goes when the sampler returns. *)
Lemma read_round_present path content initial_rss i st rss :
  files st !! path = Some content ->
  sample env (samples st) = Returned rss ->
  ReadVariant.iteration env path initial_rss i st =
  (Returned tt,
   mk_state (files st) (S (samples st)) (trace st ++ round_events [] initial_rss i rss)).
Proof.
  intros Hf Hs. unfold ReadVariant.iteration, ReadVariant.read_file. step.
  rewrite Hf. step. rewrite Hs. step.
  unfold round_events, report. rewrite <- !app_assoc. reflexivity.
Qed.

Lemma read_round_missing path initial_rss i st rss :
  files st !! path = None ->
  sample env (samples st) = Returned rss ->
  ReadVariant.iteration env path initial_rss i st =
  (Returned tt,
   mk_state (files st) (S (samples st))
     (trace st ++ round_events [not_found path] initial_rss i rss)).
Proof.
  intros Hf Hs. unfold ReadVariant.iteration, ReadVariant.read_file. step.
  rewrite Hf. step. rewrite Hs. step.
  unfold round_events, report, not_found. rewrite <- !app_assoc. reflexivity.
Qed.

Lemma std_remove_exact path st :
  writable env path = true ->
  std_remove env path st =
  (Returned (remove_result (files st) path),
   mk_state (delete path (files st)) (samples st)
     (trace st ++ [Remove path (remove_result (files st) path)])).
Proof.
  intros Hw. unfold std_remove, remove_result. rewrite Hw.
  destruct (files st !! path) eqn:Hf; [reflexivity |].
  rewrite (delete_id (files st) path Hf). reflexivity.
Qed.

Lemma write_round_writable path initial_rss i st rss :
  writable env path = true ->
  sample env (samples st) = Returned rss ->
  WriteVariant.iteration env path initial_rss i st =
  (Returned tt,
   mk_state (<[path := zeros WriteVariant.WRITE_SIZE]> (files st)) (S (samples st))
     (trace st ++
      round_events_after [ Remove path (remove_result (files st) path) ] initial_rss i rss)).
Proof.
  intros Hw Hs. unfold WriteVariant.iteration. unfold bind at 1.
  rewrite (std_remove_exact _ _ Hw).
  unfold bind at 1. rewrite (write_file_writable _ _ _ Hw).
  step. rewrite Hs. step. rewrite insert_delete_eq.
  unfold round_events_after, report. rewrite <- !app_assoc. reflexivity.
Qed.

Lemma write_round_unwritable path initial_rss i st rss :
  writable env path = false ->
  sample env (samples st) = Returned rss ->
  WriteVariant.iteration env path initial_rss i st =
  (Returned tt,
   mk_state (files st) (S (samples st))
     (trace st ++
      round_events_after [ Remove path (-1); Cerr (not_found path) ] initial_rss i rss)).
Proof.
  intros Hw Hs. unfold WriteVariant.iteration. unfold bind at 1.
  rewrite (std_remove_unwritable _ _ _ Hw).
  unfold bind at 1. rewrite (write_file_unwritable _ _ _ Hw).
  step. rewrite Hs. step.
  unfold round_events_after, report, not_found. rewrite <- !app_assoc. reflexivity.
Qed.

(** ** The fixture of the read variant *)

Lemma zeros_app a b : 0 <= a -> 0 <= b -> zeros a ++ zeros b = zeros (a + b).
Proof.
  intros Ha Hb. unfold zeros. rewrite Z2Nat.inj_add by assumption.
  symmetry. apply replicate_add.
Qed.

Lemma take_zeros_min k n : 0 <= k -> take (Z.to_nat k) (zeros n) = zeros (Z.min k n).
Proof.
  intros Hk. unfold zeros. rewrite take_replicate.
  apply (f_equal (fun c => replicate c x00)). lia.
Qed.

(** The chunked writes add up: from [written] zero bytes on, the loop
    leaves exactly [size] zero bytes in the file. *)
Lemma write_chunks_exact path chunk_size size fuel :
  0 < chunk_size -> 0 <= size ->
  forall written st,
    0 <= written ->
    files st !! path = Some (zeros (Z.min written size)) ->
    size <= written + Z.of_nat fuel * chunk_size ->
    ReadVariant.write_chunks fuel path (zeros chunk_size) size written st =
    (Returned tt, mk_state (<[path := zeros size]> (files st)) (samples st) (trace st)).
Proof.
  intros Hchunk Hsize.
  assert (Hdone : forall written st,
             files st !! path = Some (zeros (Z.min written size)) -> size <= written ->
             (Returned tt, st) =
             (Returned tt : outcome unit,
              mk_state (<[path := zeros size]> (files st)) (samples st) (trace st))).
  { intros written [fs s t] Hf Hge. cbn [files samples trace] in *.
    rewrite insert_id; [reflexivity |]. rewrite Hf. do 2 f_equal. lia. }
  induction fuel as [| fuel IH]; intros written st Hw Hf Hfuel.
  - cbn [ReadVariant.write_chunks]. unfold ret. apply (Hdone written); [exact Hf | lia].
  - cbn [ReadVariant.write_chunks]. destruct (Z.ltb_spec written size) as [Hlt | Hge].
    + step. rewrite Hf. cbn [default id].
      rewrite zeros_length by lia.
      rewrite take_zeros_min by lia.
      rewrite zeros_app by lia.
      rewrite IH.
      * cbn [files samples trace]. rewrite insert_insert_eq. reflexivity.
      * lia.
      * cbn [files]. rewrite lookup_insert_eq. do 2 f_equal. lia.
      * lia.
    + unfold ret. apply (Hdone written); [exact Hf | lia].
Qed.

Lemma create_mock_file_exact path size st :
  writable env path = true -> 0 <= size ->
  ReadVariant.create_mock_file env path size st =
  (Returned tt,
   mk_state (<[path := zeros size]> (files st)) (samples st)
     (trace st ++
      [ Cout ("Generating temporary file of size "
              +:+ Num.fixed2_ratio (Num.round53 size) (1024 * 1024) +:+ " MB...");
        Cout ("Mock file created at: " +:+ path) ])).
Proof.
  intros Hw Hsize. unfold ReadVariant.create_mock_file. step. rewrite Hw. step.
  rewrite (write_chunks_exact path (1024 * 1024) size) .
  - step. rewrite insert_insert_eq, <- app_assoc. reflexivity.
  - lia.
  - exact Hsize.
  - lia.
  - cbn [files]. rewrite lookup_insert_eq, Z.min_l by lia. reflexivity.
  - pose proof (Z.mul_succ_div_gt size (1024 * 1024) ltac:(lia)). lia.
Qed.

Lemma create_mock_file_failed path size st :
  writable env path = false ->
  ReadVariant.create_mock_file env path size st =
  (Returned tt,
   mk_state (files st) (samples st)
     (trace st ++
      [ Cout ("Generating temporary file of size "
              +:+ Num.fixed2_ratio (Num.round53 size) (1024 * 1024) +:+ " MB...");
        Cerr ("Error: Could not create mock file at " +:+ path) ])).
Proof.
  intros Hw. unfold ReadVariant.create_mock_file. step. rewrite Hw. step.
  rewrite <- app_assoc. reflexivity.
Qed.

(** ** What decides how a run ends, and what it counts *)

Lemma samples_return_cons n k :
  samples_return env n (S k) <->
  sample env n <> Aborted /\ samples_return env (S n) k.
Proof.
  split.
  - intros Hok. split.
    + pose proof (Hok 0%nat ltac:(lia)) as H0. rewrite Nat.add_0_r in H0. exact H0.
    + intros j Hj. replace (S n + j)%nat with (n + S j)%nat by lia. apply Hok. lia.
  - intros [H0 Hrest] j Hj. destruct j as [| j].
    + rewrite Nat.add_0_r. exact H0.
    + replace (n + S j)%nat with (S n + j)%nat by lia. apply Hrest. lia.
Qed.

Lemma rounds_return_iff initial_rss body :
  round_spec env initial_rss body ->
  forall n i st,
    fst (rounds n i body st) = Returned tt <-> samples_return env (samples st) n.
Proof.
  intros Hbody n. induction n as [| n IH]; intros i st.
  - split; [intros _ j Hj; lia | reflexivity].
  - rewrite samples_return_cons. cbn [rounds]. unfold bind.
    destruct (Hbody i st) as (Hn & _ & Hout).
    destruct (body i st) as [o st1]. cbn [fst snd] in *.
    destruct (sample env (samples st)) as [rss |]; destruct Hout as [-> _].
    + rewrite IH, Hn. split; [intros H; split; [discriminate | exact H] | intros [_ H]; exact H].
    + cbn [fst]. split; [discriminate | intros [H _]; contradiction].
Qed.

Lemma harness_return_iff body st :
  (forall initial_rss, round_spec env initial_rss (body initial_rss)) ->
  fst (harness env body st) = Returned tt <-> samples_return env (samples st) 51.
Proof.
  intros Hbody. rewrite samples_return_cons. unfold harness. step.
  destruct (sample env (samples st)) as [rss |].
  - rewrite for_iterations_rounds, (rounds_return_iff _ _ (Hbody _)). cbn [samples].
    split; [intros H; split; [discriminate | exact H] | intros [_ H]; exact H].
  - cbn [fst]. split; [discriminate | intros [H _]; contradiction].
Qed.

(** Every round calls the sampler once and creates one channel, however
    it ends. *)
Lemma rounds_count initial_rss body :
  round_spec env initial_rss body ->
  forall n i st,
    let st' := snd (rounds n i body st) in
    (samples st' + length (channels (trace st)) =
     samples st + length (channels (trace st')))%nat.
Proof.
  intros Hbody n. induction n as [| n IH]; intros i st; cbv zeta; [reflexivity |].
  cbn [rounds]. unfold bind.
  destruct (Hbody i st) as (Hn & Hch & _).
  specialize (IH (i + 1) (snd (body i st))). cbv zeta in IH.
  destruct (body i st) as [[[] |] st1]; cbn [fst snd] in *;
    rewrite ?Hch, ?length_app in *; cbn [length] in *; lia.
Qed.

Lemma harness_count body st :
  (forall initial_rss, round_spec env initial_rss (body initial_rss)) ->
  let st' := snd (harness env body st) in
  (samples st' + length (channels (trace st)) =
   S (samples st) + length (channels (trace st')))%nat.
Proof.
  intros Hbody. cbv zeta. unfold harness. step.
  destruct (sample env (samples st)) as [rss |]; [| reflexivity].
  rewrite for_iterations_rounds.
  match goal with |- context [rounds 50 0 ?b ?s] =>
    pose proof (rounds_count _ b (Hbody _) 50 0 s) as Hc
  end.
  cbv zeta in Hc. cbn [samples trace] in Hc. autorewrite with trace in Hc. exact Hc.
Qed.

(** ** Which files a run can touch *)

Lemma rounds_other_files (p : string) body :
  (forall i st, files (snd (body i st)) !! p = files st !! p) ->
  forall n i st, files (snd (rounds n i body st)) !! p = files st !! p.
Proof.
  intros Hbody n. induction n as [| n IH]; intros i st; [reflexivity |].
  cbn [rounds]. unfold bind. pose proof (Hbody i st) as Hb.
  destruct (body i st) as [[[] |] st1]; cbn [snd] in *; [rewrite IH |]; exact Hb.
Qed.

Lemma harness_other_files (p : string) body st :
  (forall initial_rss i st, files (snd (body initial_rss i st)) !! p = files st !! p) ->
  files (snd (harness env body st)) !! p = files st !! p.
Proof.
  intros Hbody. unfold harness. step.
  destruct (sample env (samples st)) as [rss |]; [| reflexivity].
  rewrite for_iterations_rounds, (rounds_other_files p _ (Hbody _)). reflexivity.
Qed.

Lemma write_iteration_other_files path p initial_rss i st :
  p <> path ->
  files (snd (WriteVariant.iteration env path initial_rss i st)) !! p = files st !! p.
Proof.
  intros Hp. rewrite write_iteration_files.
  unfold WriteVariant.write_file, std_remove. step.
  destruct (files st !! path); destruct (writable env path); step;
    rewrite ?lookup_insert_ne, ?lookup_delete_ne by congruence; reflexivity.
Qed.

Lemma write_chunks_other_files path p chunk size fuel :
  p <> path ->
  forall written st,
    files (snd (ReadVariant.write_chunks fuel path chunk size written st)) !! p = files st !! p.
Proof.
  intros Hp. induction fuel as [| fuel IH]; intros written st; [reflexivity |].
  cbn [ReadVariant.write_chunks]. destruct (written <? size); [| reflexivity].
  step. rewrite IH. cbn [files]. apply lookup_insert_ne. congruence.
Qed.

Lemma create_mock_file_other_files path p size st :
  p <> path ->
  files (snd (ReadVariant.create_mock_file env path size st)) !! p = files st !! p.
Proof.
  intros Hp. unfold ReadVariant.create_mock_file. step.
  destruct (writable env path); step; [| reflexivity].
  match goal with |- context [ReadVariant.write_chunks ?f path ?c size 0 ?s] =>
    pose proof (write_chunks_other_files path p c size f Hp 0 s) as Hother;
    destruct (write_chunks_calm f path c size 0 s) as (Hr & _ & _);
    destruct (ReadVariant.write_chunks f path c size 0 s) as [o st1]
  end.
  cbn [fst snd files] in *. subst o. step. rewrite Hother.
  apply lookup_insert_ne. congruence.
Qed.

End WithEnvironment.

End RunMore.

Module MoreFixtures.
Import Driver Statements Fixtures.

(** A file of three bytes where the read variant looks for its fixture. *)
Definition st_short_fixture : state :=
  mk_state {[ "/tmp/tmp_mem_test_file"%string := [x01; x02; x03] ]} 0 [].

(** On the Linux machine of the fixtures every call of the sampler
    returns. *)
Lemma env_linux_samples_return n k : samples_return env_linux n k.
Proof.
  intros j _. destruct (n + j)%nat as [| m]; vm_compute; intros H; discriminate H.
Qed.

Lemma env_readonly_samples_return n k : samples_return env_readonly n k.
Proof.
  intros j _. destruct (n + j)%nat as [| m]; vm_compute; intros H; discriminate H.
Qed.

End MoreFixtures.

Module RunTexts.
Import Driver.

(** The first line of [create_mock_file] for the 50 MB of [main]. *)
Lemma generating_50_mb :
  ("Generating temporary file of size "
   +:+ Num.fixed2_ratio (Num.round53 ReadVariant.ARBITRARY_FILE_SIZE) (1024 * 1024)
   +:+ " MB...")%string
  = "Generating temporary file of size 50.00 MB..."%string.
Proof. vm_compute. reflexivity. Qed.

End RunTexts.

(* ===================================================================== *)
(** * Runs that stop *)
(* ===================================================================== *)

Module RunStops.
Import Driver Statements DriverFacts HarnessFacts RunMore.
Local Open Scope driver_scope.

(** The lines on [std::cout] of a [trigger_mem] whose first call of the
    sampler is call [s], when call [s + k] is the first one that does not
    return: nothing when the baseline fails, else the three baseline
    lines and the lines of the [k - 1] iterations that finished. *)
Definition lines_before_stop (env : environment) (s k : nat) : list string :=
  match k with
  | O => []
  | S finished =>
      let initial_rss := Num.double_of_long (sampled env s) in
      [ "PID: " +:+ Num.to_string (pid env);
        "Initial RSS: " +:+ Num.fixed2 initial_rss +:+ " MB";
        "---------------------------------------------------------" ] ++
      map (fun j => report initial_rss (Z.of_nat j) (sampled env (s + S j))) (seq 0 finished)
  end.

Section WithEnvironment.
Variable env : environment.

Lemma rounds_stop initial_rss body :
  round_spec env initial_rss body ->
  forall k n i st,
    (k < n)%nat ->
    samples_return env (samples st) k ->
    sample env (samples st + k) = Aborted ->
    let st' := snd (rounds n i body st) in
    fst (rounds n i body st) = Aborted /\
    samples st' = (samples st + S k)%nat /\
    channels (trace st') =
      channels (trace st) ++ map (fun j => channel_address (i + Z.of_nat j)) (seq 0 (S k)) /\
    cout_lines (trace st') =
      cout_lines (trace st) ++
      map (fun j => report initial_rss (i + Z.of_nat j) (sampled env (samples st + j))) (seq 0 k).
Proof.
  intros Hbody k. induction k as [| k IH]; intros n i st Hn Hok Hs; cbv zeta;
    (destruct n as [| n]; [lia |]); cbn [rounds]; unfold bind;
    destruct (Hbody i st) as (Hsm & Hch & Hout);
    destruct (body i st) as [o st1]; cbn [fst snd] in *.
  - rewrite Nat.add_0_r in Hs. rewrite Hs in Hout. destruct Hout as [-> Hc].
    cbn [fst snd seq map]. change (Z.of_nat 0) with 0.
    rewrite Hch, Hc, Z.add_0_r, app_nil_r.
    split; [reflexivity |]. split; [lia |]. split; reflexivity.
  - destruct (samples_return_head env _ _ Hok) as [[rss Hs0] Hok'].
    rewrite Hs0 in Hout. destruct Hout as [-> Hc].
    assert (Hs1 : sample env (samples st1 + k) = Aborted).
    { rewrite Hsm. replace (S (samples st) + k)%nat with (samples st + S k)%nat by lia.
      exact Hs. }
    rewrite <- Hsm in Hok'.
    destruct (IH n (i + 1) st1 ltac:(lia) Hok' Hs1) as (Hr & Hn' & Hch' & Hout').
    split; [exact Hr |]. split; [lia |]. split.
    + rewrite Hch', Hch. change (seq 0 (S (S k))) with (0%nat :: seq 1 (S k)).
      rewrite <- (seq_shift (S k) 0). cbn [map]. rewrite map_map, <- app_assoc. cbn [app].
      change (Z.of_nat 0) with 0. rewrite Z.add_0_r.
      apply (f_equal (app _)), (f_equal (cons _)), map_ext. intros j.
      apply (f_equal channel_address). lia.
    + rewrite Hout', Hc. change (seq 0 (S k)) with (0%nat :: seq 1 k).
      rewrite <- (seq_shift k 0). cbn [map]. rewrite map_map, <- app_assoc. cbn [app].
      change (Z.of_nat 0) with 0. rewrite Z.add_0_r, Nat.add_0_r.
      replace (sampled env (samples st)) with rss by (unfold sampled; rewrite Hs0; reflexivity).
      apply (f_equal (app _)), (f_equal (cons _)), map_ext. intros j.
      rewrite Hsm.
      replace (i + 1 + Z.of_nat j) with (i + Z.of_nat (S j)) by lia.
      replace (S (samples st) + j)%nat with (samples st + S j)%nat by lia.
      reflexivity.
Qed.

Lemma harness_stops body st k :
  (forall initial_rss, round_spec env initial_rss (body initial_rss)) ->
  (k <= 50)%nat ->
  samples_return env (samples st) k ->
  sample env (samples st + k) = Aborted ->
  let st' := snd (harness env body st) in
  fst (harness env body st) = Aborted /\
  samples st' = (samples st + S k)%nat /\
  channels (trace st') =
    channels (trace st) ++ map (fun j => channel_address (Z.of_nat j)) (seq 0 k) /\
  cout_lines (trace st') = cout_lines (trace st) ++ lines_before_stop env (samples st) k.
Proof.
  intros Hbody Hk Hok Hs. cbv zeta. destruct k as [| k].
  - rewrite Nat.add_0_r in Hs. rewrite (harness_aborts env body st Hs).
    cbn [fst snd samples trace seq map lines_before_stop]. rewrite !app_nil_r.
    split; [reflexivity |]. split; [lia |]. split; reflexivity.
  - destruct (samples_return_head env _ _ Hok) as [[rss Hs0] Hok'].
    unfold lines_before_stop. cbv zeta.
    replace (sampled env (samples st)) with rss by (unfold sampled; rewrite Hs0; reflexivity).
    unfold harness. step. rewrite Hs0, for_iterations_rounds.
    match goal with |- context [rounds 50 0 ?b ?s] =>
      destruct (rounds_stop _ b (Hbody _) k 50 0 s) as (Hr & Hn & Hch & Hout)
    end.
    { lia. }
    { exact Hok'. }
    { cbn [samples]. replace (S (samples st) + k)%nat with (samples st + S k)%nat by lia.
      exact Hs. }
    cbn [samples trace] in Hn, Hch, Hout.
    autorewrite with trace in Hch, Hout.
    split; [exact Hr |]. split; [lia |]. split.
    + rewrite Hch. apply (f_equal (app _)), map_ext. intros j.
      apply (f_equal channel_address). lia.
    + rewrite Hout, <- !app_assoc. cbn [app].
      apply (f_equal (app _)). do 3 apply (f_equal (cons _)). apply map_ext. intros j.
      replace (S (samples st) + j)%nat with (samples st + S j)%nat by lia.
      reflexivity.
Qed.

End WithEnvironment.

End RunStops.

Module StopFixtures.
Import Driver Statements Fixtures.

(** A machine on which [/proc/self/stat] can be read twice and then no
    more. *)
Definition env_proc_lost : environment :=
  mk_environment (fun n => if (n <? 2)%nat then growing_stat n else None)
    4096 (fun _ => 0) false 4242 (fun _ => true).

(** A status text whose 24th field is not a number. *)
Definition stat_line_no_count : string :=
  "4242 (test-mem-leak) S 4100 4242 4100 34816 4242 4194304 1520 0 3 0 12 7 0 0 20 0 5 0 8812345 104857600 n/a 18446744073709551615".

Lemma env_proc_lost_two : samples_return env_proc_lost 0 2.
Proof.
  intros j Hj. destruct j as [| [| j]]; [vm_compute; intros H; discriminate H .. | lia].
Qed.

End StopFixtures.


(* ===================================================================== *)
(** * The claims of the specification *)
(* ===================================================================== *)

Import IStream Sampler Words Statements Fixtures.
Import SamplerFacts SamplerTheorems.
Import Driver DriverFacts HarnessFacts FileFacts RunFacts Examples.

(** ** C1: which field is the resident page count *)

(** C1, as stated, fails: on a status line as the kernel prints it the
    field at position 24 (counting from 0) is the resident-set limit, and
    the sampler's result is not computed from it. *)
Lemma field_24_is_not_the_page_count :
  exists f,
    fields stat_line !! 24%nat = Some f /\
    get_current_rss_mb (Some stat_line) 4096 0 false
    <> Returned (mb_of_rss (long_of_field f) 4096).
Proof.
  exists "18446744073709551615"%string. split; [reflexivity |].
  vm_compute. discriminate.
Qed.

(** C1, amended: for every call of [get_current_rss_mb] on a status line
    with at least 24 white-space separated fields, the call returns and
    the resident page count used to compute the result is the field at
    position 23 counting from 0 (the 24th field). *)
Theorem page_count_is_field_23 :
  forall (line : string) (page_bytes rss0 : Z) (assertions_off : bool) (f : string),
    fields line !! 23%nat = Some f ->
    get_current_rss_mb (Some line) page_bytes rss0 assertions_off =
    Returned (mb_of_rss (long_of_field f) page_bytes).
Proof. intros. apply get_current_rss_mb_field_23. assumption. Qed.

Lemma page_count_is_field_23_witness :
  fields stat_line !! 23%nat = Some "2560"%string /\
  get_current_rss_mb (Some stat_line) 4096 0 false =
  Returned (mb_of_rss (long_of_field "2560") 4096).
Proof.
  split; [reflexivity |].
  apply (page_count_is_field_23 stat_line 4096 0 false "2560").
  reflexivity.
Defined.

(** ** C2: the status source cannot be opened *)

(** C2 on the code: when [/proc/self/stat] cannot be opened and the
    program is compiled with assertions, [get_current_rss_mb] does not
    return to its caller: [state] is empty and [assert(!state.empty())]
    aborts the process, whatever the page size and the stack hold. *)
Theorem unopenable_source_aborts :
  forall page_bytes rss0 : Z,
    get_current_rss_mb None page_bytes rss0 false = Aborted.
Proof. intros. apply (get_current_rss_mb_unopened page_bytes rss0 false). Qed.

(** With [NDEBUG] the call returns, and its result is computed from the
    indeterminate value of the uninitialised [rss]. *)
Lemma unopenable_source_ndebug (page_bytes rss0 : Z) :
  get_current_rss_mb None page_bytes rss0 true = Returned (mb_of_rss rss0 page_bytes).
Proof. apply (get_current_rss_mb_unopened page_bytes rss0 true). Qed.

(** ** C3: 50 iterations, exit code 0 *)

(** C3 on the code: when the first call of the sampler finds no status
    source and assertions are compiled in, [main] of either variant is
    aborted before it has started a single iteration: no channel is
    created, and there is no exit code 0. *)
Theorem main_aborts_without_status_source :
  forall (env : environment) (st : state),
    ndebug env = false ->
    proc_self_stat env (samples st) = None ->
    (fst (ReadVariant.main env st) = Aborted /\
     channels (trace (snd (ReadVariant.main env st))) = channels (trace st)) /\
    (fst (WriteVariant.main env st) = Aborted /\
     channels (trace (snd (WriteVariant.main env st))) = channels (trace st)).
Proof.
  intros env st Hnd Hnone.
  assert (Hs : sample env (samples st) = Aborted).
  { unfold sample. rewrite Hnone, Hnd. apply (get_current_rss_mb_unopened _ _ false). }
  split; [apply read_main_aborts | apply write_main_aborts]; exact Hs.
Qed.

Lemma main_aborts_without_status_source_witness :
  ndebug env_no_proc = false /\
  proc_self_stat env_no_proc (samples st_fresh) = None /\
  fst (ReadVariant.main env_no_proc st_fresh) = Aborted /\
  fst (WriteVariant.main env_no_proc st_fresh) = Aborted.
Proof.
  destruct (main_aborts_without_status_source env_no_proc st_fresh eq_refl eq_refl)
    as [[Hread _] [Hwrite _]].
  split; [reflexivity |]. split; [reflexivity |]. split; [exact Hread | exact Hwrite].
Defined.

(** ** C4: what an iteration prints *)

(** C4: in a run of either variant in which each of the 51 status lines
    read (the baseline and one per iteration) is well formed, for every
    iteration [i] in [1, 50] the current RSS printed is a non-negative
    number, and the line printed shows it and the difference to the
    baseline, sampled once before the loop, each with two decimals. *)
Theorem iteration_line_shows_rss_and_delta :
  forall (env : environment) (st : state) (path : string) (pages : nat -> Z),
    0 <= page_size env ->
    (forall k, (k <= 50)%nat -> status_reports env (samples st + k) (pages k)) ->
    forall i : nat, (1 <= i <= 50)%nat ->
      let initial_rss := megabytes (pages 0%nat) (page_size env) in
      let current_rss := megabytes (pages i) (page_size env) in
      let line :=
        "Iteration " +:+ Num.to_string (Z.of_nat i) +:+ "/50: Current RSS: "
        +:+ Num.fixed2 current_rss +:+ " MB | Total increase: +"
        +:+ Num.fixed2 (current_rss - initial_rss) +:+ " MB" in
      let position := (length (cout_lines (trace st)) + 2 + i)%nat in
      0 <= current_rss /\
      cout_lines (trace (snd (ReadVariant.trigger_mem env path st))) !! position = Some line /\
      cout_lines (trace (snd (WriteVariant.trigger_mem env st))) !! position = Some line.
Proof.
  intros env st path pages Hps Hstat i Hi. cbv zeta.
  assert (Hsample : forall k, (k <= 50)%nat ->
            sample env (samples st + k) = Returned (megabytes (pages k) (page_size env))).
  { intros k Hk. apply status_sample; [exact Hps | apply Hstat, Hk]. }
  assert (Hok : samples_return env (samples st) 51).
  { intros j Hj. rewrite Hsample by lia. discriminate. }
  assert (Hsmall : forall k, (k <= 50)%nat ->
            0 <= megabytes (pages k) (page_size env) <= 2 ^ 53).
  { intros k Hk. destruct (Hstat k Hk) as (_ & _ & _ & _ & _ & H0 & Hmax).
    apply megabytes_small; assumption. }
  destruct i as [| j]; [lia |].
  pose proof (Hsmall 0%nat ltac:(lia)) as Hinit.
  pose proof (Hsmall (S j) ltac:(lia)) as Hcur.
  split; [apply Hcur |].
  assert (Hreport :
    report (Num.double_of_long (sampled env (samples st))) (Z.of_nat j)
           (sampled env (samples st + S j)) =
    "Iteration " +:+ Num.to_string (Z.of_nat (S j)) +:+ "/50: Current RSS: "
    +:+ Num.fixed2 (megabytes (pages (S j)) (page_size env)) +:+ " MB | Total increase: +"
    +:+ Num.fixed2 (megabytes (pages (S j)) (page_size env)
                    - megabytes (pages 0%nat) (page_size env)) +:+ " MB").
  { unfold sampled. rewrite (Hsample (S j)) by lia.
    pose proof (Hsample 0%nat ltac:(lia)) as H0. rewrite Nat.add_0_r in H0. rewrite H0.
    unfold report, iteration_line, Num.double_sub, Num.double_of_long.
    rewrite (NumFacts.round53_exact (megabytes (pages 0%nat) (page_size env))) by lia.
    rewrite (NumFacts.round53_exact (megabytes (pages (S j)) (page_size env))) by lia.
    rewrite NumFacts.round53_exact by lia.
    replace (Z.of_nat j + 1) with (Z.of_nat (S j)) by lia.
    reflexivity. }
  replace (length (cout_lines (trace st)) + 2 + S j)%nat
    with (length (cout_lines (trace st)) + 3 + j)%nat by lia.
  rewrite read_trigger_mem_harness, write_trigger_mem_harness, <- Hreport.
  split; apply harness_line; try lia; try exact Hok;
    [apply read_iteration_round | apply write_iteration_round].
Qed.

Lemma iteration_line_shows_rss_and_delta_witness :
  0 <= megabytes (growing_pages 7) (page_size env_linux) /\
  cout_lines (trace (snd (WriteVariant.trigger_mem env_linux st_fresh))) !! 9%nat =
  Some ("Iteration 7/50: Current RSS: 12.00 MB | Total increase: +2.00 MB")%string.
Proof.
  assert (Hstat : forall k, (k <= 50)%nat ->
            status_reports env_linux (samples st_fresh + k) (growing_pages k)).
  { intros k Hk. destruct k as [| k].
    - exists stat_line, "2560"%string. vm_compute. intuition discriminate.
    - exists stat_line_later, "3072"%string. vm_compute. intuition discriminate. }
  destruct (iteration_line_shows_rss_and_delta env_linux st_fresh "/tmp/tmp_mem_test_file"
              growing_pages ltac:(vm_compute; discriminate) Hstat 7%nat ltac:(lia))
    as (Hnonneg & _ & Hwrite).
  split; [exact Hnonneg | exact Hwrite].
Defined.

(** ** C5: the arithmetic of the sampler *)

(** C5: for every call whose status source opens on a line with a 24th
    field, whose page count times the page size in KB a double holds
    exactly (up to 2^53 KB), [get_current_rss_mb] returns the page count
    multiplied by the page size in KB, divided by 1024: resident memory in
    whole megabytes. *)
Theorem sampler_returns_whole_megabytes :
  forall (line : string) (page_bytes rss0 : Z) (assertions_off : bool) (f : string),
    fields line !! 23%nat = Some f ->
    - 2 ^ 53 <= long_of_field f * Z.quot page_bytes 1024 <= 2 ^ 53 ->
    get_current_rss_mb (Some line) page_bytes rss0 assertions_off =
    Returned (Z.quot (long_of_field f * Z.quot page_bytes 1024) 1024).
Proof.
  intros line page_bytes rss0 assertions_off f Hf Hrange.
  rewrite (get_current_rss_mb_field_23 _ _ _ _ _ Hf), mb_of_rss_exact by exact Hrange.
  reflexivity.
Qed.

Lemma sampler_returns_whole_megabytes_witness :
  get_current_rss_mb (Some stat_line) 4096 0 false =
  Returned (Z.quot (2560 * Z.quot 4096 1024) 1024).
Proof.
  apply (sampler_returns_whole_megabytes stat_line 4096 0 false "2560").
  - reflexivity.
  - vm_compute. split; discriminate.
Defined.

(** ** C6: a read fills the buffer *)

(** C6: in the read variant, if the fixture file is there and holds at
    least 30 MB, an invocation of [read_file] in any state ends with its
    buffer holding exactly [READ_SIZE] = 30 MB bytes, all read from the
    file: the first [READ_SIZE] bytes of the file. *)
Theorem read_file_fills_buffer :
  forall (file_path : string) (content : list byte) (st : state),
    files st !! file_path = Some content ->
    ReadVariant.READ_SIZE <= Z.of_nat (length content) ->
    exists data_buffer : list byte,
      ReadVariant.read_file file_path st =
        (Returned (Some (data_buffer, ReadVariant.READ_SIZE)), st) /\
      data_buffer = take (Z.to_nat ReadVariant.READ_SIZE) content /\
      Z.of_nat (length data_buffer) = 30 * 1024 * 1024.
Proof.
  intros file_path content st Hf Hlen.
  assert (H0 : 0 <= ReadVariant.READ_SIZE) by (unfold ReadVariant.READ_SIZE; lia).
  exists (take (Z.to_nat ReadVariant.READ_SIZE) content).
  rewrite (read_file_present _ _ _ Hf), ifstream_read_full by lia.
  split; [reflexivity |]. split; [reflexivity |].
  rewrite length_take_le by lia. unfold ReadVariant.READ_SIZE in *. lia.
Qed.

Lemma read_file_fills_buffer_witness :
  exists data_buffer : list byte,
    ReadVariant.read_file "/tmp/tmp_mem_test_file" st_fixture =
      (Returned (Some (data_buffer, ReadVariant.READ_SIZE)), st_fixture) /\
    data_buffer = take (Z.to_nat ReadVariant.READ_SIZE) (zeros ReadVariant.ARBITRARY_FILE_SIZE) /\
    Z.of_nat (length data_buffer) = 30 * 1024 * 1024.
Proof.
  apply (read_file_fills_buffer "/tmp/tmp_mem_test_file"
           (zeros ReadVariant.ARBITRARY_FILE_SIZE) st_fixture).
  - apply lookup_singleton_eq.
  - rewrite zeros_length; unfold ReadVariant.READ_SIZE, ReadVariant.ARBITRARY_FILE_SIZE; lia.
Defined.

(** ** C7: the scratch file of the write variant *)

(** C7, as stated, fails: where the process may not write to the scratch
    path, an iteration leaves no scratch file behind, let alone one of
    30 MB; [write_file] reports the failure and the round goes on. *)
Lemma no_scratch_file_when_unwritable :
  ~ (exists content : list byte,
       files (snd (WriteVariant.iteration env_readonly "/tmp/test_file.txt" 10 0 st_fresh))
         !! "/tmp/test_file.txt" = Some content /\
       Z.of_nat (length content) = WriteVariant.WRITE_SIZE).
Proof.
  rewrite readonly_round. cbn [snd files]. rewrite lookup_empty.
  intros (content & Hc & _). discriminate Hc.
Qed.

(** C7, amended: in the write variant, wherever the process may remove
    and create the file at the target path, every iteration, whatever
    state it starts in, first calls [std::remove] on the path, which
    succeeds when there is a file (the trace shows the call and its
    result in front of everything else the iteration does); once the call
    has run the path is unbound; the iteration's write starts from that
    state, so it creates the file; and after the iteration the scratch
    file exists with size exactly 30 MB. *)
Theorem scratch_file_recreated_when_writable :
  forall (env : environment) (file_path : string) (initial_rss i : Z) (st : state),
    writable env file_path = true ->
    let removed := snd (std_remove env file_path st) in
    let after := snd (WriteVariant.iteration env file_path initial_rss i st) in
    let result := match files st !! file_path with Some _ => 0 | None => -1 end in
    (exists rest,
       trace after =
       trace st ++ [Remove file_path result; CreateChannel (channel_address i)] ++ rest) /\
    files removed !! file_path = None /\
    files after = files (snd (WriteVariant.write_file env file_path removed)) /\
    exists content : list byte,
      files after !! file_path = Some content /\
      Z.of_nat (length content) = 30 * 1024 * 1024.
Proof.
  intros env file_path initial_rss i st Hw. cbv zeta.
  split.
  { unfold WriteVariant.iteration. unfold bind at 1.
    rewrite (RunMore.std_remove_exact env _ _ Hw). unfold RunWords.remove_result.
    unfold bind at 1. rewrite (write_file_writable _ _ _ Hw). step.
    destruct (sample env (samples st)); step; rewrite <- !app_assoc; cbn [app];
      eexists; reflexivity. }
  split; [apply std_remove_writable, Hw |].
  split; [apply write_iteration_files |].
  exists (zeros WriteVariant.WRITE_SIZE).
  rewrite write_iteration_files, (write_file_writable _ _ _ Hw). cbn [snd files].
  split; [apply lookup_insert_eq |].
  rewrite zeros_length; unfold WriteVariant.WRITE_SIZE; lia.
Qed.

Lemma scratch_file_recreated_when_writable_witness :
  (exists rest,
     trace (snd (WriteVariant.iteration env_linux "/tmp/test_file.txt" 10 0 st_scratch_left)) =
     trace st_scratch_left ++
     [Remove "/tmp/test_file.txt" 0; CreateChannel (channel_address 0)] ++ rest) /\
  files (snd (std_remove env_linux "/tmp/test_file.txt" st_scratch_left))
    !! "/tmp/test_file.txt" = None /\
  exists content : list byte,
    files (snd (WriteVariant.iteration env_linux "/tmp/test_file.txt" 10 0 st_scratch_left))
      !! "/tmp/test_file.txt" = Some content /\
    Z.of_nat (length content) = 30 * 1024 * 1024.
Proof.
  destruct (scratch_file_recreated_when_writable env_linux "/tmp/test_file.txt" 10 0
              st_scratch_left eq_refl) as (Hcall & Hgone & _ & Hfile).
  split; [exact Hcall |]. split; [exact Hgone | exact Hfile].
Defined.

(** ** C8: one channel per iteration *)

(** C8: in either variant the round of iteration [i] creates exactly one
    channel, and its target is the fixed host name followed by the port
    4000 + i.  Over a run of [trigger_mem] the rounds that start are those
    of [i = 0, 1, ...], at most 50 of them: the channels created are
    localhost:4000, localhost:4001, ... in this order, one per round, the
    port going up by exactly one. *)
Theorem one_channel_per_iteration :
  forall (env : environment) (file_path : string) (initial_rss i : Z) (st : state),
    let address (k : Z) := "localhost:" +:+ Num.to_string (4000 + k) in
    channels (trace (snd (ReadVariant.iteration env file_path initial_rss i st))) =
      channels (trace st) ++ [address i] /\
    channels (trace (snd (WriteVariant.iteration env file_path initial_rss i st))) =
      channels (trace st) ++ [address i] /\
    (exists m, (m <= 50)%nat /\
       channels (trace (snd (ReadVariant.trigger_mem env file_path st))) =
       channels (trace st) ++ map (fun k => address (Z.of_nat k)) (seq 0 m)) /\
    (exists m, (m <= 50)%nat /\
       channels (trace (snd (WriteVariant.trigger_mem env st))) =
       channels (trace st) ++ map (fun k => address (Z.of_nat k)) (seq 0 m)).
Proof.
  intros env file_path initial_rss i st. cbv zeta.
  split; [apply (read_iteration_round env file_path initial_rss i st) |].
  split; [apply (write_iteration_round env file_path initial_rss i st) |].
  rewrite read_trigger_mem_harness, write_trigger_mem_harness.
  split; apply harness_channels; intros initial;
    [apply read_iteration_round | apply write_iteration_round].
Qed.

(** ** C9: a missing fixture *)

(** C9: if the fixture file cannot be opened when [read_file] runs, the
    function prints an error message and returns without a buffer; the
    iteration then creates its channel and calls the sampler, and it ends
    as that call ends. *)
Theorem missing_fixture_is_not_fatal :
  forall (env : environment) (file_path : string) (initial_rss i : Z) (st : state),
    files st !! file_path = None ->
    let message := "Error: File '" +:+ file_path +:+ "' not found." in
    let round := ReadVariant.iteration env file_path initial_rss i st in
    ReadVariant.read_file file_path st =
      (Returned None, mk_state (files st) (samples st) (trace st ++ [Cerr message])) /\
    (exists rest,
       trace (snd round) = trace st ++ [Cerr message; CreateChannel (channel_address i)] ++ rest) /\
    samples (snd round) = S (samples st) /\
    fst round = match sample env (samples st) with
                | Returned _ => Returned tt
                | Aborted => Aborted
                end.
Proof.
  intros env file_path initial_rss i st Hf. cbv zeta.
  split; [apply read_file_missing, Hf |].
  unfold ReadVariant.iteration. step. rewrite (read_file_missing _ _ Hf). step.
  destruct (sample env (samples st)); step; rewrite <- !app_assoc; cbn [app].
  - split; [eexists; reflexivity |]. split; reflexivity.
  - split; [exists []; reflexivity |]. split; reflexivity.
Qed.

Lemma missing_fixture_is_not_fatal_witness :
  ReadVariant.read_file "/tmp/tmp_mem_test_file" st_fresh =
    (Returned None,
     mk_state ∅ 0 [Cerr "Error: File '/tmp/tmp_mem_test_file' not found."]) /\
  fst (ReadVariant.iteration env_linux "/tmp/tmp_mem_test_file" 10 0 st_fresh) = Returned tt.
Proof.
  destruct (missing_fixture_is_not_fatal env_linux "/tmp/tmp_mem_test_file" 10 0 st_fresh
              (lookup_empty _))
    as (Hread & _ & _ & Hround).
  split; [exact Hread | exact Hround].
Defined.

(** ** C10: what the scratch file holds *)

(** C10: in the write variant the buffer [write_file] writes is value
    initialised, so after every iteration whose write could open the
    file, the scratch file consists of exactly 30 MB of zero bytes. *)
Theorem scratch_file_is_all_zero :
  forall (env : environment) (file_path : string) (initial_rss i : Z) (st : state),
    writable env file_path = true ->
    exists content : list byte,
      files (snd (WriteVariant.iteration env file_path initial_rss i st)) !! file_path
        = Some content /\
      content = replicate (Z.to_nat WriteVariant.WRITE_SIZE) x00 /\
      Z.of_nat (length content) = 30 * 1024 * 1024 /\
      Forall (fun b => b = x00) content.
Proof.
  intros env file_path initial_rss i st Hw.
  exists (zeros WriteVariant.WRITE_SIZE).
  rewrite write_iteration_files, (write_file_writable _ _ _ Hw). cbn [snd files].
  split; [apply lookup_insert_eq |]. split; [reflexivity |].
  split; [rewrite zeros_length; unfold WriteVariant.WRITE_SIZE; lia |].
  unfold zeros. apply Forall_replicate. reflexivity.
Qed.

Lemma scratch_file_is_all_zero_witness :
  exists content : list byte,
    files (snd (WriteVariant.iteration env_linux "/tmp/test_file.txt" 10 0 st_fresh))
      !! "/tmp/test_file.txt" = Some content /\
    content = replicate (Z.to_nat WriteVariant.WRITE_SIZE) x00 /\
    Z.of_nat (length content) = 30 * 1024 * 1024 /\
    Forall (fun b => b = x00) content.
Proof.
  apply (scratch_file_is_all_zero env_linux "/tmp/test_file.txt" 10 0 st_fresh).
  reflexivity.
Defined.


(* ===================================================================== *)
(** * Further properties of the code *)
(* ===================================================================== *)

Import SamplerMore RunWords RunMore MoreFixtures.

(** ** The sampler *)

(** X1: what [get_current_rss_mb] does on every text it can open, by the
    white-space separated fields of the text.  With 24 fields or more it
    returns the megabytes of field 23.  With fewer, [rss] is never
    written: the call returns the megabytes of the indeterminate value
    [rss] started with, unless there are fewer than three fields and
    assertions are compiled in, when [state] is empty and the call
    aborts. *)
Theorem sampler_by_fields :
  forall (line : string) (page_bytes rss0 : Z) (assertions_off : bool),
    get_current_rss_mb (Some line) page_bytes rss0 assertions_off =
    match fields line !! 23%nat with
    | Some f => Returned (mb_of_rss (long_of_field f) page_bytes)
    | None =>
        if negb assertions_off && (length (fields line) <? 3)%nat then Aborted
        else Returned (mb_of_rss rss0 page_bytes)
    end.
Proof.
  intros line page_bytes rss0 assertions_off.
  destruct (fields line !! 23%nat) as [f |] eqn:H23;
    [apply get_current_rss_mb_field_23, H23 |].
  assert (Hstate : forall x, fields line !! 2%nat = Some x -> empty x = false).
  { intros x Hx. apply (fields_nonempty line). eapply list_elem_of_lookup_2, Hx. }
  destruct (fields line) as [| f0 fs] eqn:Hf.
  { run_short. destruct assertions_off; reflexivity. }
  destruct fs as [| f1 fs].
  { run_short. destruct assertions_off; reflexivity. }
  destruct fs as [| f2 fs].
  { run_short. destruct assertions_off; reflexivity. }
  specialize (Hstate f2 eq_refl).
  do 21 (destruct fs as [| ? fs];
         [ run_short; rewrite Hstate; cbn [length Nat.ltb Nat.leb]; rewrite !andb_false_r;
           reflexivity | ]).
  discriminate H23.
Qed.

(** X2: whatever the status source, the page size and the stack hold, a
    value [get_current_rss_mb] returns lies within 2^53 of zero, so the
    conversion to [double] in [trigger_mem] keeps it exactly: the current
    RSS printed is the value returned. *)
Theorem sampler_result_is_exact_in_double :
  forall (source : option string) (page_bytes rss0 : Z) (assertions_off : bool),
    match get_current_rss_mb source page_bytes rss0 assertions_off with
    | Returned v => - 2 ^ 53 <= v <= 2 ^ 53 /\ Num.double_of_long v = v
    | Aborted => True
    end.
Proof.
  intros source page_bytes rss0 assertions_off.
  destruct (sampler_outcomes source page_bytes rss0 assertions_off) as [-> | [rss ->]];
    [exact I |].
  pose proof (mb_of_rss_bounded rss page_bytes) as Hb.
  split; [exact Hb | apply NumFacts.round53_exact, Hb].
Qed.

(** X3: when [sysconf(_SC_PAGE_SIZE)] is below 1024 in magnitude (a page
    smaller than one KB, or the error value -1) the page size in KB
    truncates to 0, and every call that returns, returns 0. *)
Theorem sampler_returns_zero_below_one_kb :
  forall (source : option string) (page_bytes rss0 : Z) (assertions_off : bool),
    - 1024 < page_bytes < 1024 ->
    get_current_rss_mb source page_bytes rss0 assertions_off = Aborted \/
    get_current_rss_mb source page_bytes rss0 assertions_off = Returned 0.
Proof.
  intros source page_bytes rss0 assertions_off Hsmall.
  destruct (sampler_outcomes source page_bytes rss0 assertions_off) as [-> | [rss ->]];
    [left; reflexivity | right].
  unfold mb_of_rss.
  replace (Z.quot page_bytes 1024) with 0; [rewrite Z.mul_0_r; reflexivity |].
  symmetry. apply Z.quot_small_iff; lia.
Qed.

Lemma sampler_returns_zero_below_one_kb_witness :
  get_current_rss_mb (Some stat_line) (-1) 0 false = Aborted \/
  get_current_rss_mb (Some stat_line) (-1) 0 false = Returned 0.
Proof.
  apply (sampler_returns_zero_below_one_kb (Some stat_line) (-1) 0 false). lia.
Defined.

(** ** The buffers *)

Import Driver DriverFacts HarnessFacts FileFacts RunTexts.

(** X4: what [read_file] leaves in its buffer for a file of any length
    that can be opened.  The buffer always has [READ_SIZE] bytes; the
    read delivers the smaller of [READ_SIZE] and the length of the file;
    that many bytes at the front of the buffer come from the front of the
    file, and behind them the buffer keeps the zeros it was created with.
    Nothing is printed and no file changes. *)
Theorem read_file_buffer_shape :
  forall (file_path : string) (content : list byte) (st : state),
    files st !! file_path = Some content ->
    exists (data_buffer : list byte) (count : Z),
      ReadVariant.read_file file_path st = (Returned (Some (data_buffer, count)), st) /\
      count = Z.min ReadVariant.READ_SIZE (Z.of_nat (length content)) /\
      Z.of_nat (length data_buffer) = ReadVariant.READ_SIZE /\
      take (Z.to_nat count) data_buffer = take (Z.to_nat ReadVariant.READ_SIZE) content /\
      drop (Z.to_nat count) data_buffer = zeros (ReadVariant.READ_SIZE - count).
Proof.
  intros file_path content st Hf.
  assert (H0 : 0 <= ReadVariant.READ_SIZE) by (unfold ReadVariant.READ_SIZE; lia).
  rewrite (read_file_present _ _ _ Hf).
  destruct (Z.le_gt_cases ReadVariant.READ_SIZE (Z.of_nat (length content))) as [Hfull | Hshort].
  - rewrite ifstream_read_full by lia.
    exists (take (Z.to_nat ReadVariant.READ_SIZE) content), ReadVariant.READ_SIZE.
    split; [reflexivity |]. split; [lia |].
    split; [rewrite length_take_le by lia; lia |].
    split.
    + apply take_ge. rewrite length_take. lia.
    + rewrite Z.sub_diag. apply drop_ge. rewrite length_take. lia.
  - rewrite ifstream_read_short by lia.
    exists (content ++ zeros (ReadVariant.READ_SIZE - Z.of_nat (length content))),
           (Z.of_nat (length content)).
    split; [reflexivity |]. split; [lia |].
    split; [rewrite length_app, Nat2Z.inj_add, zeros_length by lia; lia |].
    rewrite Nat2Z.id. split.
    + rewrite take_app_length. symmetry. apply take_ge. lia.
    + apply drop_app_length.
Qed.

Lemma read_file_buffer_shape_witness :
  exists (data_buffer : list byte) (count : Z),
    ReadVariant.read_file "/tmp/tmp_mem_test_file" st_short_fixture =
      (Returned (Some (data_buffer, count)), st_short_fixture) /\
    count = Z.min ReadVariant.READ_SIZE (Z.of_nat (length [x01; x02; x03])) /\
    Z.of_nat (length data_buffer) = ReadVariant.READ_SIZE /\
    take (Z.to_nat count) data_buffer = take (Z.to_nat ReadVariant.READ_SIZE) [x01; x02; x03] /\
    drop (Z.to_nat count) data_buffer = zeros (ReadVariant.READ_SIZE - count).
Proof.
  apply (read_file_buffer_shape "/tmp/tmp_mem_test_file" [x01; x02; x03] st_short_fixture).
  apply lookup_singleton_eq.
Defined.

(** X5: [create_mock_file] on a path that can be opened for writing, for
    a size whose chunked count does not wrap in [size_t]: the chunks of
    1 MB and the shorter last one add up, so the file ends up with
    exactly [size] bytes, all zero, whatever it held before; the two
    progress lines are printed and nothing else happens. *)
Theorem create_mock_file_writes_size_zeros :
  forall (env : environment) (file_path : string) (size : Z) (st : state),
    writable env file_path = true ->
    0 <= size <= 2 ^ 64 - 1024 * 1024 ->
    ReadVariant.create_mock_file env file_path size st =
    (Returned tt,
     mk_state (<[file_path := replicate (Z.to_nat size) x00]> (files st)) (samples st)
       (trace st ++
        [ Cout ("Generating temporary file of size "
                +:+ Num.fixed2_ratio (Num.round53 size) (1024 * 1024) +:+ " MB...");
          Cout ("Mock file created at: " +:+ file_path) ])).
Proof.
  intros env file_path size st Hw Hsize.
  apply create_mock_file_exact; [exact Hw | lia].
Qed.

Lemma create_mock_file_writes_size_zeros_witness :
  ReadVariant.create_mock_file env_linux "/tmp/tmp_mem_test_file" ReadVariant.ARBITRARY_FILE_SIZE
    st_fresh =
  (Returned tt,
   mk_state (<["/tmp/tmp_mem_test_file" :=
                 replicate (Z.to_nat ReadVariant.ARBITRARY_FILE_SIZE) x00]> (files st_fresh))
     (samples st_fresh)
     (trace st_fresh ++
      [ Cout ("Generating temporary file of size "
              +:+ Num.fixed2_ratio (Num.round53 ReadVariant.ARBITRARY_FILE_SIZE) (1024 * 1024)
              +:+ " MB...");
        Cout ("Mock file created at: " +:+ "/tmp/tmp_mem_test_file") ])).
Proof.
  refine (create_mock_file_writes_size_zeros env_linux "/tmp/tmp_mem_test_file"
            ReadVariant.ARBITRARY_FILE_SIZE st_fresh eq_refl _).
  unfold ReadVariant.ARBITRARY_FILE_SIZE. lia.
Defined.

(** X6: [trigger_mem] of the read variant never changes a file, however
    many rounds it runs and however it ends. *)
Theorem read_trigger_mem_keeps_files :
  forall (env : environment) (file_path : string) (st : state),
    files (snd (ReadVariant.trigger_mem env file_path st)) = files st.
Proof.
  intros env file_path st. rewrite read_trigger_mem_harness. unfold harness. step.
  destruct (sample env (samples st)) as [rss |]; [| reflexivity].
  rewrite for_iterations_rounds, read_rounds_files. reflexivity.
Qed.

(** ** Whole runs *)

(** X7: a run of either program touches no file but its own: whatever
    the environment and however the run ends, every other path holds at
    the end what it held at the start. *)
Theorem runs_touch_only_their_own_file :
  forall (env : environment) (st : state) (p : string),
    p <> "/tmp/tmp_mem_test_file"%string ->
    p <> "/tmp/test_file.txt"%string ->
    files (snd (ReadVariant.main env st)) !! p = files st !! p /\
    files (snd (WriteVariant.main env st)) !! p = files st !! p.
Proof.
  intros env st p Hread Hwrite. split.
  - unfold ReadVariant.main. cbv zeta. unfold bind at 1.
    pose proof (create_mock_file_other_files env "/tmp/tmp_mem_test_file" p
                  ReadVariant.ARBITRARY_FILE_SIZE st Hread) as Hc.
    destruct (create_mock_file_calm env "/tmp/tmp_mem_test_file"
                ReadVariant.ARBITRARY_FILE_SIZE st) as (Hr & _ & _).
    destruct (ReadVariant.create_mock_file env "/tmp/tmp_mem_test_file"
                ReadVariant.ARBITRARY_FILE_SIZE st) as [o st1].
    cbn [fst snd] in *. subst o.
    unfold bind at 1. rewrite read_trigger_mem_harness.
    pose proof (harness_other_files env p (ReadVariant.iteration env "/tmp/tmp_mem_test_file") st1
                  (fun a i s => f_equal (fun m => m !! p)
                                  (read_iteration_files env "/tmp/tmp_mem_test_file" a i s)))
      as Hh.
    destruct (harness env (ReadVariant.iteration env "/tmp/tmp_mem_test_file") st1)
      as [[[] |] st2]; cbn [snd] in *; [| rewrite Hh; exact Hc].
    unfold std_remove. unfold bind at 1.
    destruct (files st2 !! "/tmp/tmp_mem_test_file"%string);
      destruct (writable env "/tmp/tmp_mem_test_file");
      cbn [fst snd Z.eqb negb]; step;
      rewrite ?lookup_delete_ne by congruence; rewrite Hh; exact Hc.
  - unfold WriteVariant.main. unfold bind at 1. rewrite write_trigger_mem_harness.
    pose proof (harness_other_files env p (WriteVariant.iteration env "/tmp/test_file.txt") st
                  (fun a i s => write_iteration_other_files env "/tmp/test_file.txt" p a i s Hwrite))
      as Hh.
    destruct (harness env (WriteVariant.iteration env "/tmp/test_file.txt") st)
      as [[[] |] st1]; exact Hh.
Qed.

Lemma runs_touch_only_their_own_file_witness :
  files (snd (ReadVariant.main env_no_proc st_fixture)) !! "/etc/hostname"%string
    = files st_fixture !! "/etc/hostname"%string /\
  files (snd (WriteVariant.main env_no_proc st_fixture)) !! "/etc/hostname"%string
    = files st_fixture !! "/etc/hostname"%string.
Proof.
  apply (runs_touch_only_their_own_file env_no_proc st_fixture "/etc/hostname");
    intros H; discriminate H.
Defined.

(** X8: what decides how a run ends.  Either program returns 0 exactly
    when the 51 calls of the sampler it can make all return, and when one
    of them does not, the run aborts: no file that cannot be created,
    read, written or deleted changes the exit code. *)
Theorem run_returns_iff_samples_return :
  forall (env : environment) (st : state),
    (fst (ReadVariant.main env st) = Returned 0 <-> samples_return env (samples st) 51) /\
    (fst (WriteVariant.main env st) = Returned 0 <-> samples_return env (samples st) 51) /\
    (fst (ReadVariant.main env st) = Returned 0 \/ fst (ReadVariant.main env st) = Aborted) /\
    (fst (WriteVariant.main env st) = Returned 0 \/ fst (WriteVariant.main env st) = Aborted).
Proof.
  intros env st.
  assert (Hread :
    fst (ReadVariant.main env st) =
    match fst (harness env (ReadVariant.iteration env "/tmp/tmp_mem_test_file")
                 (snd (ReadVariant.create_mock_file env "/tmp/tmp_mem_test_file"
                         ReadVariant.ARBITRARY_FILE_SIZE st))) with
    | Returned _ => Returned 0
    | Aborted => Aborted
    end).
  { unfold ReadVariant.main. cbv zeta. unfold bind at 1.
    destruct (create_mock_file_calm env "/tmp/tmp_mem_test_file"
                ReadVariant.ARBITRARY_FILE_SIZE st) as (Hr & _ & _).
    destruct (ReadVariant.create_mock_file env "/tmp/tmp_mem_test_file"
                ReadVariant.ARBITRARY_FILE_SIZE st) as [o st1].
    cbn [fst snd] in *. subst o.
    unfold bind at 1. rewrite read_trigger_mem_harness.
    destruct (harness env (ReadVariant.iteration env "/tmp/tmp_mem_test_file") st1)
      as [[[] |] st2]; cbn [fst]; [| reflexivity].
    unfold std_remove. unfold bind at 1.
    destruct (files st2 !! "/tmp/tmp_mem_test_file"%string);
      destruct (writable env "/tmp/tmp_mem_test_file"); reflexivity. }
  assert (Hwrite :
    fst (WriteVariant.main env st) =
    match fst (harness env (WriteVariant.iteration env "/tmp/test_file.txt") st) with
    | Returned _ => Returned 0
    | Aborted => Aborted
    end).
  { unfold WriteVariant.main. unfold bind at 1. rewrite write_trigger_mem_harness.
    destruct (harness env (WriteVariant.iteration env "/tmp/test_file.txt") st)
      as [[[] |] st1]; reflexivity. }
  pose proof (harness_return_iff env (ReadVariant.iteration env "/tmp/tmp_mem_test_file")
                (snd (ReadVariant.create_mock_file env "/tmp/tmp_mem_test_file"
                        ReadVariant.ARBITRARY_FILE_SIZE st))
                (read_iteration_round env "/tmp/tmp_mem_test_file")) as Hr.
  destruct (create_mock_file_calm env "/tmp/tmp_mem_test_file"
              ReadVariant.ARBITRARY_FILE_SIZE st) as (_ & Hsame & _).
  cbv zeta in Hsame. rewrite Hsame in Hr.
  pose proof (harness_return_iff env (WriteVariant.iteration env "/tmp/test_file.txt") st
                (write_iteration_round env "/tmp/test_file.txt")) as Hw.
  rewrite Hread, Hwrite.
  set (hr := fst (harness env (ReadVariant.iteration env "/tmp/tmp_mem_test_file")
                    (snd (ReadVariant.create_mock_file env "/tmp/tmp_mem_test_file"
                            ReadVariant.ARBITRARY_FILE_SIZE st)))) in *.
  set (hw := fst (harness env (WriteVariant.iteration env "/tmp/test_file.txt") st)) in *.
  split; [| split; [| split]].
  - rewrite <- Hr. destruct hr as [[] |]; split; intros H; try reflexivity; discriminate H.
  - rewrite <- Hw. destruct hw as [[] |]; split; intros H; try reflexivity; discriminate H.
  - destruct hr; [left | right]; reflexivity.
  - destruct hw; [left | right]; reflexivity.
Qed.

(** X9: the read variant on a healthy machine, event by event.  When the
    fixture can be written and every call of the sampler returns, [main]
    returns 0; it has printed the two lines of [create_mock_file], the
    three baseline lines, and for each of the 50 iterations in order the
    channel, the status line and the pause, with nothing on the error
    stream, and at the end removed the fixture with success; the sampler
    has been called 51 times; and the fixture is gone again, the other
    files being as before. *)
Theorem read_run_on_a_healthy_machine :
  forall (env : environment) (st : state),
    writable env "/tmp/tmp_mem_test_file" = true ->
    samples_return env (samples st) 51 ->
    ReadVariant.main env st =
    (Returned 0,
     mk_state (delete "/tmp/tmp_mem_test_file"%string (files st)) (samples st + 51)
       (trace st ++
        [ Cout "Generating temporary file of size 50.00 MB...";
          Cout "Mock file created at: /tmp/tmp_mem_test_file" ] ++
        run_events env [] (samples st) ++
        [ Remove "/tmp/tmp_mem_test_file" 0 ])).
Proof.
  intros env st Hw Hok.
  unfold ReadVariant.main. cbv zeta. unfold bind at 1.
  rewrite (create_mock_file_exact env _ _ st Hw)
    by (unfold ReadVariant.ARBITRARY_FILE_SIZE; lia).
  rewrite generating_50_mb.
  unfold bind at 1. rewrite read_trigger_mem_harness.
  match goal with |- context [harness env _ ?st1] =>
    rewrite (harness_exact_errors env (fun m => m)
               (fun m => m !! "/tmp/tmp_mem_test_file"%string
                         = Some (zeros ReadVariant.ARBITRARY_FILE_SIZE))
               [] (ReadVariant.iteration env "/tmp/tmp_mem_test_file") st1
               (fun m H => H)
               (fun a i s rss HP Hs =>
                  read_round_present env "/tmp/tmp_mem_test_file" _ a i s rss HP Hs)
               (lookup_insert_eq (files st) _ _) Hok)
  end.
  rewrite iter_id. cbn [files samples trace].
  unfold bind at 1, std_remove. cbn [files samples trace].
  rewrite lookup_insert_eq, Hw. step. cbn [Z.eqb negb]. step.
  rewrite delete_insert_eq, <- !app_assoc. reflexivity.
Qed.

Lemma read_run_on_a_healthy_machine_witness :
  ReadVariant.main env_linux st_fresh =
  (Returned 0,
   mk_state (delete "/tmp/tmp_mem_test_file"%string (files st_fresh)) (samples st_fresh + 51)
     (trace st_fresh ++
      [ Cout "Generating temporary file of size 50.00 MB...";
        Cout "Mock file created at: /tmp/tmp_mem_test_file" ] ++
      run_events env_linux [] (samples st_fresh) ++
      [ Remove "/tmp/tmp_mem_test_file" 0 ])).
Proof.
  exact (read_run_on_a_healthy_machine env_linux st_fresh eq_refl
           (env_linux_samples_return 0 51)).
Defined.

(** X10: the read variant where the fixture cannot be written.  When
    every call of the sampler returns, [main] still returns 0 and leaves
    every file as it was; [create_mock_file] reports that it could not
    create the file; each of the 50 iterations reads what is there, or
    reports that the file was not found when nothing is, and goes on to
    its channel, status line and pause; and the run ends with the removal
    that fails and the warning that the file could not be deleted. *)
Theorem read_run_without_write_access :
  forall (env : environment) (st : state),
    writable env "/tmp/tmp_mem_test_file" = false ->
    samples_return env (samples st) 51 ->
    let errors :=
      match files st !! "/tmp/tmp_mem_test_file"%string with
      | Some _ => []
      | None => [ not_found "/tmp/tmp_mem_test_file" ]
      end in
    ReadVariant.main env st =
    (Returned 0,
     mk_state (files st) (samples st + 51)
       (trace st ++
        [ Cout "Generating temporary file of size 50.00 MB...";
          Cerr "Error: Could not create mock file at /tmp/tmp_mem_test_file" ] ++
        run_events env errors (samples st) ++
        [ Remove "/tmp/tmp_mem_test_file" (-1);
          Cerr "Warning: Could not delete mock file." ])).
Proof.
  intros env st Hw Hok. cbv zeta.
  unfold ReadVariant.main. cbv zeta. unfold bind at 1.
  rewrite (create_mock_file_failed env _ _ st Hw).
  rewrite generating_50_mb.
  unfold bind at 1. rewrite read_trigger_mem_harness.
  destruct (files st !! "/tmp/tmp_mem_test_file"%string) as [content |] eqn:Hf.
  - match goal with |- context [harness env _ ?st1] =>
      rewrite (harness_exact_errors env (fun m => m)
                 (fun m => m !! "/tmp/tmp_mem_test_file"%string = Some content)
                 [] (ReadVariant.iteration env "/tmp/tmp_mem_test_file") st1
                 (fun m H => H)
                 (fun a i s rss HP Hs =>
                    read_round_present env "/tmp/tmp_mem_test_file" _ a i s rss HP Hs)
                 Hf Hok)
    end.
    rewrite iter_id. cbn [files samples trace].
    unfold bind at 1. rewrite (std_remove_unwritable env _ _ Hw).
    step. cbn [Z.eqb negb]. step.
    rewrite <- !app_assoc. reflexivity.
  - match goal with |- context [harness env _ ?st1] =>
      rewrite (harness_exact_errors env (fun m => m)
                 (fun m => m !! "/tmp/tmp_mem_test_file"%string = None)
                 [ not_found "/tmp/tmp_mem_test_file" ]
                 (ReadVariant.iteration env "/tmp/tmp_mem_test_file") st1
                 (fun m H => H)
                 (fun a i s rss HP Hs =>
                    read_round_missing env "/tmp/tmp_mem_test_file" a i s rss HP Hs)
                 Hf Hok)
    end.
    rewrite iter_id. cbn [files samples trace].
    unfold bind at 1. rewrite (std_remove_unwritable env _ _ Hw).
    step. cbn [Z.eqb negb]. step.
    rewrite <- !app_assoc. reflexivity.
Qed.

Lemma read_run_without_write_access_witness :
  let errors :=
    match files st_fresh !! "/tmp/tmp_mem_test_file"%string with
    | Some _ => []
    | None => [ not_found "/tmp/tmp_mem_test_file" ]
    end in
  ReadVariant.main env_readonly st_fresh =
  (Returned 0,
   mk_state (files st_fresh) (samples st_fresh + 51)
     (trace st_fresh ++
      [ Cout "Generating temporary file of size 50.00 MB...";
        Cerr "Error: Could not create mock file at /tmp/tmp_mem_test_file" ] ++
      run_events env_readonly errors (samples st_fresh) ++
      [ Remove "/tmp/tmp_mem_test_file" (-1);
        Cerr "Warning: Could not delete mock file." ])).
Proof.
  exact (read_run_without_write_access env_readonly st_fresh eq_refl
           (env_readonly_samples_return 0 51)).
Defined.

(** X11: the write variant on a healthy machine, event by event.  When
    the scratch file can be written and every call of the sampler
    returns, [main] returns 0; it has printed the three baseline lines
    and, for each of the 50 iterations in order, called [std::remove] on
    the scratch file, made the channel, printed the status line and
    paused, with nothing on the error stream.  The removal of the first
    iteration succeeds when there was a scratch file at the start, every
    later one succeeds: it removes the file the iteration before wrote.
    The run leaves the scratch file behind, holding [WRITE_SIZE] zero
    bytes: nothing deletes the file of the last iteration. *)
Theorem write_run_on_a_healthy_machine :
  forall (env : environment) (st : state),
    writable env "/tmp/test_file.txt" = true ->
    samples_return env (samples st) 51 ->
    WriteVariant.main env st =
    (Returned 0,
     mk_state (<["/tmp/test_file.txt"%string :=
                   replicate (Z.to_nat WriteVariant.WRITE_SIZE) x00]> (files st))
       (samples st + 51)
       (trace st ++
        run_events_after env
          (fun k => [ Remove "/tmp/test_file.txt"
                        match k with
                        | O => remove_result (files st) "/tmp/test_file.txt"
                        | S _ => 0
                        end ])
          (samples st))).
Proof.
  intros env st Hw Hok.
  unfold WriteVariant.main. unfold bind at 1. rewrite write_trigger_mem_harness.
  pose (F := fun m : gmap string (list byte) =>
               <["/tmp/test_file.txt"%string := zeros WriteVariant.WRITE_SIZE]> m).
  pose proof (harness_exact env F (fun _ => True)
                (fun m => [ Remove "/tmp/test_file.txt"
                              (remove_result m "/tmp/test_file.txt") ])
                (WriteVariant.iteration env "/tmp/test_file.txt") st
                (fun m H => H)
                (fun a i s rss _ Hs =>
                   write_round_writable env "/tmp/test_file.txt" a i s rss Hw Hs)
                I Hok) as Hrun.
  cbv beta in Hrun.
  rewrite (run_events_after_ext env _
             (fun k => [ Remove "/tmp/test_file.txt"
                           match k with
                           | O => remove_result (files st) "/tmp/test_file.txt"
                           | S _ => 0
                           end ])) in Hrun.
  - subst F.
    rewrite (iter_insert "/tmp/test_file.txt" (zeros WriteVariant.WRITE_SIZE) 49) in Hrun.
    rewrite Hrun. reflexivity.
  - intros [| k]; [reflexivity |]. subst F.
    rewrite (iter_insert "/tmp/test_file.txt" (zeros WriteVariant.WRITE_SIZE) k).
    unfold remove_result. rewrite lookup_insert_eq. reflexivity.
Qed.

Lemma write_run_on_a_healthy_machine_witness :
  WriteVariant.main env_linux st_fresh =
  (Returned 0,
   mk_state (<["/tmp/test_file.txt"%string :=
                 replicate (Z.to_nat WriteVariant.WRITE_SIZE) x00]> (files st_fresh))
     (samples st_fresh + 51)
     (trace st_fresh ++
      run_events_after env_linux
        (fun k => [ Remove "/tmp/test_file.txt"
                      match k with
                      | O => remove_result (files st_fresh) "/tmp/test_file.txt"
                      | S _ => 0
                      end ])
        (samples st_fresh))).
Proof.
  exact (write_run_on_a_healthy_machine env_linux st_fresh eq_refl
           (env_linux_samples_return 0 51)).
Defined.

(** X12: the write variant where the scratch file cannot be written.
    When every call of the sampler returns, [main] still returns 0 and
    leaves every file as it was; each of the 50 iterations calls
    [std::remove], which fails, reports that the file was not found and
    goes on to its channel, status line and pause. *)
Theorem write_run_without_write_access :
  forall (env : environment) (st : state),
    writable env "/tmp/test_file.txt" = false ->
    samples_return env (samples st) 51 ->
    WriteVariant.main env st =
    (Returned 0,
     mk_state (files st) (samples st + 51)
       (trace st ++
        run_events_after env
          (fun _ => [ Remove "/tmp/test_file.txt" (-1);
                      Cerr "Error: File '/tmp/test_file.txt' not found." ])
          (samples st))).
Proof.
  intros env st Hw Hok.
  unfold WriteVariant.main. unfold bind at 1. rewrite write_trigger_mem_harness.
  rewrite (harness_exact env (fun m => m) (fun _ => True)
             (fun _ => [ Remove "/tmp/test_file.txt" (-1);
                         Cerr (not_found "/tmp/test_file.txt") ])
             (WriteVariant.iteration env "/tmp/test_file.txt") st
             (fun m H => H)
             (fun a i s rss _ Hs =>
                write_round_unwritable env "/tmp/test_file.txt" a i s rss Hw Hs)
             I Hok).
  rewrite iter_id. reflexivity.
Qed.

Lemma write_run_without_write_access_witness :
  WriteVariant.main env_readonly st_fresh =
  (Returned 0,
   mk_state (files st_fresh) (samples st_fresh + 51)
     (trace st_fresh ++
      run_events_after env_readonly
        (fun _ => [ Remove "/tmp/test_file.txt" (-1);
                    Cerr "Error: File '/tmp/test_file.txt' not found." ])
        (samples st_fresh))).
Proof.
  exact (write_run_without_write_access env_readonly st_fresh eq_refl
           (env_readonly_samples_return 0 51)).
Defined.

(** X13: in [trigger_mem] of either program, however far it gets, the
    sampler has been called once more than channels have been created:
    once for the baseline and once in every iteration that was started. *)
Theorem one_sample_more_than_channels :
  forall (env : environment) (file_path : string) (st : state),
    let after_read := snd (ReadVariant.trigger_mem env file_path st) in
    let after_write := snd (WriteVariant.trigger_mem env st) in
    (samples after_read + length (channels (trace st)) =
     S (samples st) + length (channels (trace after_read)))%nat /\
    (samples after_write + length (channels (trace st)) =
     S (samples st) + length (channels (trace after_write)))%nat.
Proof.
  intros env file_path st. cbv zeta.
  rewrite read_trigger_mem_harness, write_trigger_mem_harness. split.
  - apply (harness_count env (ReadVariant.iteration env file_path) st).
    intros initial_rss. apply read_iteration_round.
  - apply (harness_count env (WriteVariant.iteration env "/tmp/test_file.txt") st).
    intros initial_rss. apply write_iteration_round.
Qed.

(** X14: a run stops at the first call of the sampler that does not
    return.  When the first [k] calls return and the next one does not
    ([k] at most 50), [trigger_mem] of either program aborts there: the
    sampler has been called [k + 1] times, the channels of the first [k]
    iterations have been created, and the output holds the baseline
    lines and the lines of the [k - 1] iterations that finished (nothing
    at all when the baseline call is the one that fails). *)
Theorem trigger_mem_stops_at_first_failed_sample :
  forall (env : environment) (file_path : string) (st : state) (k : nat),
    (k <= 50)%nat ->
    samples_return env (samples st) k ->
    sample env (samples st + k) = Aborted ->
    let stopped (r : outcome unit * state) :=
      fst r = Aborted /\
      samples (snd r) = (samples st + S k)%nat /\
      channels (trace (snd r)) =
        channels (trace st) ++ map (fun j => channel_address (Z.of_nat j)) (seq 0 k) /\
      cout_lines (trace (snd r)) =
        cout_lines (trace st) ++ RunStops.lines_before_stop env (samples st) k in
    stopped (ReadVariant.trigger_mem env file_path st) /\
    stopped (WriteVariant.trigger_mem env st).
Proof.
  intros env file_path st k Hk Hok Hs. cbv zeta.
  rewrite read_trigger_mem_harness, write_trigger_mem_harness. split.
  - apply (RunStops.harness_stops env (ReadVariant.iteration env file_path) st k);
      [intros initial_rss; apply read_iteration_round | assumption ..].
  - apply (RunStops.harness_stops env (WriteVariant.iteration env "/tmp/test_file.txt") st k);
      [intros initial_rss; apply write_iteration_round | assumption ..].
Qed.

Lemma trigger_mem_stops_at_first_failed_sample_witness :
  let stopped (r : outcome unit * state) :=
    fst r = Aborted /\
    samples (snd r) = (samples st_fresh + 3)%nat /\
    channels (trace (snd r)) =
      channels (trace st_fresh) ++ map (fun j => channel_address (Z.of_nat j)) (seq 0 2) /\
    cout_lines (trace (snd r)) =
      cout_lines (trace st_fresh) ++
      RunStops.lines_before_stop StopFixtures.env_proc_lost (samples st_fresh) 2 in
  stopped (ReadVariant.trigger_mem StopFixtures.env_proc_lost "/tmp/tmp_mem_test_file" st_fresh) /\
  stopped (WriteVariant.trigger_mem StopFixtures.env_proc_lost st_fresh).
Proof.
  exact (trigger_mem_stops_at_first_failed_sample StopFixtures.env_proc_lost
           "/tmp/tmp_mem_test_file" st_fresh 2 ltac:(lia)
           StopFixtures.env_proc_lost_two eq_refl).
Defined.

(** ** More on the sampler *)

(** X15: the sampler is monotone.  For two status texts with a 24th
    field, a page size that is not negative and page counts that are not
    negative and whose size in KB a double holds exactly, the text with
    the larger page count gives the larger result, or the same: growth in
    resident pages never shows as a decrease. *)
Theorem sampler_is_monotone :
  forall (line1 line2 f1 f2 : string) (page_bytes rss1 rss2 : Z) (off1 off2 : bool),
    fields line1 !! 23%nat = Some f1 ->
    fields line2 !! 23%nat = Some f2 ->
    0 <= page_bytes ->
    0 <= long_of_field f1 <= long_of_field f2 ->
    long_of_field f2 * Z.quot page_bytes 1024 <= 2 ^ 53 ->
    exists v1 v2 : Z,
      get_current_rss_mb (Some line1) page_bytes rss1 off1 = Returned v1 /\
      get_current_rss_mb (Some line2) page_bytes rss2 off2 = Returned v2 /\
      0 <= v1 <= v2.
Proof.
  intros line1 line2 f1 f2 page_bytes rss1 rss2 off1 off2 H1 H2 Hps Hcount Hmax.
  pose proof (Z.quot_pos page_bytes 1024 Hps ltac:(lia)) as Hkb.
  assert (Hle : long_of_field f1 * Z.quot page_bytes 1024
                <= long_of_field f2 * Z.quot page_bytes 1024) by nia.
  assert (H0 : 0 <= long_of_field f1 * Z.quot page_bytes 1024) by nia.
  exists (megabytes (long_of_field f1) page_bytes), (megabytes (long_of_field f2) page_bytes).
  rewrite (get_current_rss_mb_field_23 _ _ _ _ _ H1), (get_current_rss_mb_field_23 _ _ _ _ _ H2).
  rewrite !mb_of_rss_exact by lia.
  split; [reflexivity |]. split; [reflexivity |].
  unfold megabytes. split.
  - apply Z.quot_pos; lia.
  - apply Z.quot_le_mono; lia.
Qed.

Lemma sampler_is_monotone_witness :
  exists v1 v2 : Z,
    get_current_rss_mb (Some stat_line) 4096 0 false = Returned v1 /\
    get_current_rss_mb (Some stat_line_later) 4096 0 false = Returned v2 /\
    0 <= v1 <= v2.
Proof.
  apply (sampler_is_monotone stat_line stat_line_later "2560" "3072" 4096 0 0 false false).
  - reflexivity.
  - reflexivity.
  - lia.
  - vm_compute. split; discriminate.
  - vm_compute. discriminate.
Defined.

(** X16: a 24th field that does not start with a digit or a sign is no
    error for the sampler: the extraction into [rss] stores 0, and the
    call returns 0 MB, with or without assertions. *)
Theorem sampler_reads_zero_from_a_field_that_is_no_number :
  forall (line : string) (c : ascii) (rest : string) (page_bytes rss0 : Z)
         (assertions_off : bool),
    fields line !! 23%nat = Some (String c rest) ->
    isdigit c = false ->
    c <> "-"%char ->
    c <> "+"%char ->
    get_current_rss_mb (Some line) page_bytes rss0 assertions_off = Returned 0.
Proof.
  intros line c rest page_bytes rss0 assertions_off H23 Hdigit Hminus Hplus.
  rewrite (get_current_rss_mb_field_23 _ _ _ _ _ H23).
  assert (Hzero : long_of_field (String c rest) = 0).
  { unfold long_of_field, scan_long.
    apply Ascii.eqb_neq in Hminus. apply Ascii.eqb_neq in Hplus.
    rewrite Hminus, Hplus. cbn [take_digits]. rewrite Hdigit. reflexivity. }
  rewrite Hzero. unfold mb_of_rss. rewrite Z.mul_0_l. reflexivity.
Qed.

Lemma sampler_reads_zero_from_a_field_that_is_no_number_witness :
  get_current_rss_mb (Some StopFixtures.stat_line_no_count) 4096 0 false = Returned 0.
Proof.
  apply (sampler_reads_zero_from_a_field_that_is_no_number
           StopFixtures.stat_line_no_count "n" "/a" 4096 0 false).
  - reflexivity.
  - reflexivity.
  - intros H; discriminate H.
  - intros H; discriminate H.
Defined.
